(** * arxiv-dailynews: the ranking and caching engine of [main-.py]

    A shallow embedding of the [PaperManager] class and of the handlers
    around it, followed by the properties of the engine.

    Conventions of the model.
    - A Python [str] is the [string] of the bytes of its UTF-8 encoding:
      equality, concatenation and [in] are those of the bytes, [len] counts
      code points. [str.lower] and [str.split] follow the Unicode character
      database and are parameters of the model (class [PyStr]), known only
      on ASCII text; module [Str] implements them there.
    - [time.time()] readings are binary64 floats ([float]), subtracted and
      compared as the processor does; [datetime] values are integers ([Z])
      counting microseconds since the epoch, UTC.
    - The hot score [(a + k) / (d + 7) ** 1.5] is a real number and the
      rising score a rational one; for sorting, the hot score is carried by
      the exact pair [(a + k, d)] and compared by cross multiplication of
      squares, which is the order of the real values. The code compares
      the rounded floats.
    - The two fetch threads write disjoint attributes under the lock and are
      joined before anything reads them, so they are run one after the other.
    - An uncaught Python exception is the outcome [Raise], which keeps the
      state as the mutations before the raise left it. *)

From Stdlib Require Import Floats.
From Stdlib Require Import ZArith QArith Reals Lia Lra Lqa Ascii String List.
From stdpp Require Import gmap strings list fin_maps sorting.

Close Scope Q_scope.
Close Scope R_scope.
Open Scope nat_scope.

(** ** Strings *)

(** The text methods on ASCII strings. *)
Module Str.

Definition isupper (c : ascii) : bool :=
  let n := nat_of_ascii c in (65 <=? n) && (n <=? 90).

Definition lower_char (c : ascii) : ascii :=
  if isupper c then ascii_of_nat (nat_of_ascii c + 32) else c.

(** [s.lower()] on ASCII text *)
Fixpoint lower (s : string) : string :=
  match s with
  | EmptyString => EmptyString
  | String c s' => String (lower_char c) (lower s')
  end.

(** The ASCII characters for which [str.isspace] holds: tab, line feed,
    vertical tab, form feed, carriage return, the four separators
    0x1c..0x1f and the space. *)
Definition isspace (c : ascii) : bool :=
  let n := nat_of_ascii c in
  ((9 <=? n) && (n <=? 13)) || ((28 <=? n) && (n <=? 32)).

Definition flush (cur : string) (rest : list string) : list string :=
  match cur with
  | EmptyString => rest
  | _ => cur :: rest
  end.

(** [s.split()] with no separator on ASCII text: maximal runs of
    characters that are not whitespace, [cur] being the run read so far. *)
Fixpoint split_from (cur : string) (s : string) : list string :=
  match s with
  | EmptyString => flush cur []
  | String c s' =>
      if isspace c then flush cur (split_from EmptyString s')
      else split_from (cur +:+ String c EmptyString) s'
  end.

Definition split (s : string) : list string := split_from EmptyString s.

(** [k in t] on strings: [k] occurs in [t] as a contiguous substring. An
    encoded string occurs in an encoded text at code-point boundaries
    only. *)
Fixpoint contains (k t : string) : bool :=
  String.prefix k t ||
  match t with
  | EmptyString => false
  | String _ t' => contains k t'
  end.

(** The bytes 0x80..0xBF, which continue a code point. *)
Definition iscontinuation (c : ascii) : bool :=
  let n := nat_of_ascii c in (128 <=? n) && (n <? 192).

(** [len(s)]: the number of code points. *)
Fixpoint len (s : string) : nat :=
  match s with
  | EmptyString => 0
  | String c s' => if iscontinuation c then len s' else S (len s')
  end.

(** [s.isascii()] *)
Fixpoint isascii (s : string) : bool :=
  match s with
  | EmptyString => true
  | String c s' => (nat_of_ascii c <? 128) && isascii s'
  end.

End Str.

(** What the model takes from Python's [str] type: [s.lower()] and
    [s.split()], as functions on encoded strings. On ASCII text
    [s.lower()] is [Str.lower s]. *)
Class PyStr := {
  str_lower : string → string;
  str_split : string → list string;
  str_lower_ascii : ∀ s, Str.isascii s = true → str_lower s = Str.lower s
}.

(** ** Records of the upstream source *)

(** An [arxiv.Result], restricted to the attributes the program reads.
    [authors] holds the [name] of each author, in order. *)
Record Paper := {
  entry_id : string;
  title : string;
  summary : string;
  authors : list string;
  published : Z;
  categories : list string;
  pdf_url : option string
}.

Definition CATEGORIES : list string :=
  ["physics"; "math"; "cs"; "q-bio"; "q-fin"; "stat"; "eess"; "econ"].

(** What one [arxiv.Search(...).results()] iteration delivers: the papers
    it yields and whether it then raises. The papers yielded before an
    exception have already been stored when the handler runs. *)
Record QueryResult := {
  yielded : list Paper;
  raised : bool
}.

(** The upstream source seen by one corpus build: the answer to the query
    [cat:<category>.*] with [max_results=100], newest first. *)
Definition Upstream := string → QueryResult.

(** ** Python dictionaries with their insertion order *)

Section Dict.
Context {V : Type}.

(** [d[k] = v]: an existing key keeps its position, a new key goes last. *)
Fixpoint dict_set (k : string) (v : V) (d : list (string * V)) : list (string * V) :=
  match d with
  | [] => [(k, v)]
  | (k', v') :: d' =>
      if String.eqb k' k then (k, v) :: d' else (k', v') :: dict_set k v d'
  end.

Fixpoint dict_get (k : string) (d : list (string * V)) : option V :=
  match d with
  | [] => None
  | (k', v') :: d' => if String.eqb k' k then Some v' else dict_get k d'
  end.

Definition dict_keys (d : list (string * V)) : list string := map fst d.
Definition dict_values (d : list (string * V)) : list V := map snd d.
End Dict.

(** ** Stable sorting, largest key first *)

Section Sorted.
Context {K A : Type} (ltb : K → K → bool).

(** [x] goes in front of the first element whose key is not larger. *)
Fixpoint insert_desc (x : K * A) (l : list (K * A)) : list (K * A) :=
  match l with
  | [] => [x]
  | y :: l' => if ltb (fst x) (fst y) then y :: insert_desc x l' else x :: l
  end.

Definition sort_desc (l : list (K * A)) : list (K * A) :=
  foldr insert_desc [] l.

(** [sorted(l, key=..., reverse=True)]: the key of the [i]-th element is
    computed once, by the [i]-th call of the key function, and elements
    with equal keys keep their order. *)
Definition sorted_reverse (key : nat → A → K) (l : list A) : list A :=
  map snd (sort_desc (imap (λ i x, (key i x, x)) l)).
End Sorted.

(** ** The manager's state *)

(** The attributes of a [PaperManager]. The lock is not modelled. The
    attribute [raw_papers] is not created by [__init__]: it is [None] until
    the first assignment to it. *)
Record PaperManager := {
  papers_per_page : nat;
  current_page : nat;
  papers : list Paper;
  total_pages : nat;
  sort_method : string;
  trending_keywords : list string;
  author_publication_counts : gmap string nat;
  all_past_papers : list Paper;
  new_papers : list Paper;
  last_fetch_time : option float;
  cache_duration : float;
  raw_papers : option (list Paper)
}.

(** [PaperManager.__init__] *)
Definition PaperManager_init (per_page : nat) : PaperManager := {|
  papers_per_page := per_page;
  current_page := 1;
  papers := [];
  total_pages := 1;
  sort_method := "hot";
  trending_keywords := [];
  author_publication_counts := ∅;
  all_past_papers := [];
  new_papers := [];
  last_fetch_time := None;
  cache_duration := 3600%float;
  raw_papers := None
|}.

(** The process-wide instance, [paper_manager = PaperManager()]. *)
Definition paper_manager : PaperManager := PaperManager_init 30.

Definition set_current_page (n : nat) (st : PaperManager) : PaperManager :=
  {| papers_per_page := papers_per_page st; current_page := n;
     papers := papers st; total_pages := total_pages st;
     sort_method := sort_method st; trending_keywords := trending_keywords st;
     author_publication_counts := author_publication_counts st;
     all_past_papers := all_past_papers st; new_papers := new_papers st;
     last_fetch_time := last_fetch_time st; cache_duration := cache_duration st;
     raw_papers := raw_papers st |}.

Definition set_papers (l : list Paper) (st : PaperManager) : PaperManager :=
  {| papers_per_page := papers_per_page st; current_page := current_page st;
     papers := l; total_pages := total_pages st;
     sort_method := sort_method st; trending_keywords := trending_keywords st;
     author_publication_counts := author_publication_counts st;
     all_past_papers := all_past_papers st; new_papers := new_papers st;
     last_fetch_time := last_fetch_time st; cache_duration := cache_duration st;
     raw_papers := raw_papers st |}.

Definition set_total_pages (n : nat) (st : PaperManager) : PaperManager :=
  {| papers_per_page := papers_per_page st; current_page := current_page st;
     papers := papers st; total_pages := n;
     sort_method := sort_method st; trending_keywords := trending_keywords st;
     author_publication_counts := author_publication_counts st;
     all_past_papers := all_past_papers st; new_papers := new_papers st;
     last_fetch_time := last_fetch_time st; cache_duration := cache_duration st;
     raw_papers := raw_papers st |}.

Definition set_sort_method_attr (m : string) (st : PaperManager) : PaperManager :=
  {| papers_per_page := papers_per_page st; current_page := current_page st;
     papers := papers st; total_pages := total_pages st;
     sort_method := m; trending_keywords := trending_keywords st;
     author_publication_counts := author_publication_counts st;
     all_past_papers := all_past_papers st; new_papers := new_papers st;
     last_fetch_time := last_fetch_time st; cache_duration := cache_duration st;
     raw_papers := raw_papers st |}.

Definition set_trending_keywords (l : list string) (st : PaperManager) : PaperManager :=
  {| papers_per_page := papers_per_page st; current_page := current_page st;
     papers := papers st; total_pages := total_pages st;
     sort_method := sort_method st; trending_keywords := l;
     author_publication_counts := author_publication_counts st;
     all_past_papers := all_past_papers st; new_papers := new_papers st;
     last_fetch_time := last_fetch_time st; cache_duration := cache_duration st;
     raw_papers := raw_papers st |}.

Definition set_author_publication_counts (c : gmap string nat) (st : PaperManager)
  : PaperManager :=
  {| papers_per_page := papers_per_page st; current_page := current_page st;
     papers := papers st; total_pages := total_pages st;
     sort_method := sort_method st; trending_keywords := trending_keywords st;
     author_publication_counts := c;
     all_past_papers := all_past_papers st; new_papers := new_papers st;
     last_fetch_time := last_fetch_time st; cache_duration := cache_duration st;
     raw_papers := raw_papers st |}.

Definition set_all_past_papers (l : list Paper) (st : PaperManager) : PaperManager :=
  {| papers_per_page := papers_per_page st; current_page := current_page st;
     papers := papers st; total_pages := total_pages st;
     sort_method := sort_method st; trending_keywords := trending_keywords st;
     author_publication_counts := author_publication_counts st;
     all_past_papers := l; new_papers := new_papers st;
     last_fetch_time := last_fetch_time st; cache_duration := cache_duration st;
     raw_papers := raw_papers st |}.

Definition set_new_papers (l : list Paper) (st : PaperManager) : PaperManager :=
  {| papers_per_page := papers_per_page st; current_page := current_page st;
     papers := papers st; total_pages := total_pages st;
     sort_method := sort_method st; trending_keywords := trending_keywords st;
     author_publication_counts := author_publication_counts st;
     all_past_papers := all_past_papers st; new_papers := l;
     last_fetch_time := last_fetch_time st; cache_duration := cache_duration st;
     raw_papers := raw_papers st |}.

Definition set_last_fetch_time (t : option float) (st : PaperManager) : PaperManager :=
  {| papers_per_page := papers_per_page st; current_page := current_page st;
     papers := papers st; total_pages := total_pages st;
     sort_method := sort_method st; trending_keywords := trending_keywords st;
     author_publication_counts := author_publication_counts st;
     all_past_papers := all_past_papers st; new_papers := new_papers st;
     last_fetch_time := t; cache_duration := cache_duration st;
     raw_papers := raw_papers st |}.

Definition set_raw_papers (l : option (list Paper)) (st : PaperManager) : PaperManager :=
  {| papers_per_page := papers_per_page st; current_page := current_page st;
     papers := papers st; total_pages := total_pages st;
     sort_method := sort_method st; trending_keywords := trending_keywords st;
     author_publication_counts := author_publication_counts st;
     all_past_papers := all_past_papers st; new_papers := new_papers st;
     last_fetch_time := last_fetch_time st; cache_duration := cache_duration st;
     raw_papers := l |}.

(** ** Methods as state transformers that may raise *)

Inductive exn := AttributeError | ZeroDivisionError.

Inductive outcome (A : Type) :=
| Return (v : A) (st : PaperManager)
| Raise (e : exn) (st : PaperManager).
Arguments Return {A} v st.
Arguments Raise {A} e st.

Definition M (A : Type) : Type := PaperManager → outcome A.

Definition ret {A} (v : A) : M A := λ st, Return v st.

Definition bind {A B} (m : M A) (k : A → M B) : M B :=
  λ st, match m st with
        | Return v st' => k v st'
        | Raise e st' => Raise e st'
        end.

Definition raise {A} (e : exn) : M A := λ st, Raise e st.
Definition get {A} (f : PaperManager → A) : M A := λ st, Return (f st) st.
Definition modify (f : PaperManager → PaperManager) : M unit := λ st, Return tt (f st).

Notation "x <- m ;; k" := (bind m (λ x, k))
  (at level 100, m at next level, right associativity).
Notation "m ;; k" := (bind m (λ _, k))
  (at level 100, right associativity).

(** The state an outcome leaves behind, returned or raised. *)
Definition state_of {A} (o : outcome A) : PaperManager :=
  match o with
  | Return _ st => st
  | Raise _ st => st
  end.

Definition returned {A} (o : outcome A) : option A :=
  match o with
  | Return v _ => Some v
  | Raise _ _ => None
  end.

(** ** Fetcher *)

(** The loop over [CATEGORIES] shared by [fetch_past_papers] and
    [fetch_new_papers]: every yielded paper is stored under its
    [entry_id]; an exception of one query ends that query only. *)
Definition store_results (d : list (string * Paper)) (r : QueryResult)
  : list (string * Paper) :=
  fold_left (λ d paper, dict_set (entry_id paper) paper d) (yielded r) d.

Definition build_corpus (up : Upstream) : list Paper :=
  dict_values (fold_left (λ d category, store_results d (up category)) CATEGORIES []).

Definition fetch_past_papers (up : Upstream) : M unit :=
  modify (set_all_past_papers (build_corpus up)).

Definition fetch_new_papers (up : Upstream) : M unit :=
  modify (set_new_papers (build_corpus up)).

Section Engine.
Context {py : PyStr}.

(** ** Trend analysis *)

(** [(paper.title + ' ' + paper.summary).lower()] *)
Definition paper_text (p : Paper) : string :=
  str_lower (title p +:+ " " +:+ summary p).

(** [keyword_counts[word] += 1] on a [defaultdict(int)] *)
Definition bump (word : string) (counts : list (string * nat)) : list (string * nat) :=
  dict_set word (default 0 (dict_get word counts) + 1) counts.

Definition count_word (counts : list (string * nat)) (word : string)
  : list (string * nat) :=
  if 4 <? Str.len word then bump word counts else counts.

Definition count_paper (counts : list (string * nat)) (p : Paper)
  : list (string * nat) :=
  fold_left count_word (str_split (paper_text p)) counts.

Definition keyword_counts (l : list Paper) : list (string * nat) :=
  fold_left count_paper l [].

(** [sorted(keyword_counts.items(), key=lambda x: x[1], reverse=True)] *)
Definition sorted_keywords (counts : list (string * nat)) : list (string * nat) :=
  sorted_reverse Nat.ltb (λ _ item, snd item) counts.

Definition calculate_trending_keywords : M unit :=
  modify (λ st,
    set_trending_keywords
      (map fst (take 50 (sorted_keywords (keyword_counts (all_past_papers st))))) st).

(** [self.author_publication_counts[author.name] += 1] *)
Definition count_author (counts : gmap string nat) (name : string) : gmap string nat :=
  <[name := default 0 (counts !! name) + 1]> counts.

Definition count_authors (counts : gmap string nat) (p : Paper) : gmap string nat :=
  fold_left count_author (authors p) counts.

(** The loop runs on the dictionary created by [__init__], whatever it
    holds by now. *)
Definition calculate_author_activity : M unit :=
  modify (λ st,
    set_author_publication_counts
      (fold_left count_authors (all_past_papers st) (author_publication_counts st)) st).

(** ** Scores *)

Definition day : Z := 86400000000.

(** [max(time_diff.days, 0)]: [timedelta.days] is the floor of the
    difference in days. *)
Definition time_diff_days (now : Z) (p : Paper) : Z :=
  Z.max ((now - published p) / day) 0.

Definition author_activity_score (st : PaperManager) (p : Paper) : nat :=
  sum_list (map (λ name, default 0 (author_publication_counts st !! name)) (authors p)).

Definition keyword_score (st : PaperManager) (p : Paper) : nat :=
  fold_left (λ score keyword, if Str.contains keyword (paper_text p) then score + 1 else score)
    (trending_keywords st) 0.

(** The value [a / (d + 7) ** 1.5] of the pair [(a, d)]. *)
Definition hot_value (k : Z * Z) : R :=
  (IZR (fst k) / Rpower (IZR (snd k + 7)) (3 / 2))%R.

(** The order of [hot_value] on pairs, decided on integers. *)
Definition hot_ltb (k1 k2 : Z * Z) : bool :=
  (fst k1 ^ 2 * (snd k2 + 7) ^ 3 <? fst k2 ^ 2 * (snd k1 + 7) ^ 3)%Z.

Definition hot_key (st : PaperManager) (now : Z) (p : Paper) : Z * Z :=
  (Z.of_nat (author_activity_score st p + keyword_score st p), time_diff_days now p).

Definition calculate_score (st : PaperManager) (now : Z) (p : Paper) : R :=
  hot_value (hot_key st now p).

Definition novelty_score (st : PaperManager) (p : Paper) : nat :=
  let words : gset string := list_to_set (str_split (paper_text p)) in
  let uncommon_keywords := words ∖ list_to_set (trending_keywords st) in
  size uncommon_keywords.

Definition calculate_rising_score (st : PaperManager) (now : Z) (p : Paper) : Q :=
  Z.of_nat (novelty_score st p) # Z.to_pos (time_diff_days now p + 1).

Definition Qltb (a b : Q) : bool := negb (Qle_bool b a).

(** ** Sorting and pagination *)

(** [clock i] is what [datetime.now(timezone.utc)] reads when the key of
    the [i]-th element is computed. *)
Definition sort_by_score (clock : nat → Z) (st : PaperManager) (l : list Paper)
  : list Paper :=
  sorted_reverse hot_ltb (λ i x, hot_key st (clock i) x) l.

Definition sort_by_rising_score (clock : nat → Z) (st : PaperManager) (l : list Paper)
  : list Paper :=
  sorted_reverse Qltb (λ i x, calculate_rising_score st (clock i) x) l.

Definition sort_by_published (l : list Paper) : list Paper :=
  sorted_reverse Z.ltb (λ _ x, published x) l.

(** Reading [self.raw_papers] *)
Definition get_raw_papers : M (list Paper) :=
  λ st, match raw_papers st with
        | Some l => ret l st
        | None => raise AttributeError st
        end.

Definition sort_papers (clock : nat → Z) : M unit :=
  λ st,
    if String.eqb (sort_method st) "hot" then
      (raw <- get_raw_papers ;;
       modify (set_papers (sort_by_score clock st raw))) st
    else if String.eqb (sort_method st) "new" then
      modify (set_papers (sort_by_published (new_papers st))) st
    else if String.eqb (sort_method st) "rising" then
      (raw <- get_raw_papers ;;
       modify (set_papers (sort_by_rising_score clock st raw))) st
    else
      (raw <- get_raw_papers ;;
       modify (set_papers (sort_by_score clock st raw))) st.

Definition known_methods : list string := ["hot"; "new"; "rising"].

Definition set_sort_method (method : string) (clock : nat → Z) : M bool :=
  let method :=
    if bool_decide (str_lower method ∈ known_methods) then method else "hot" in
  modify (set_sort_method_attr (str_lower method)) ;;
  sort_papers clock ;;
  modify (set_current_page 1) ;;
  ret true.

(** What a handler hands to the page: the table of ranked rows, or one of
    the fixed messages. The markup [format_paper] writes for a row is a
    function of the rank and the paper and is not expanded here. *)
Inductive html :=
| Table (rows : list (nat * Paper))
| NoPapers
| Loading
| FailedFetch
| FailedSort.

Definition render_papers (st : PaperManager) : html :=
  let start := (current_page st - 1) * papers_per_page st in
  let current_papers := take (papers_per_page st) (drop start (papers st)) in
  match current_papers with
  | [] => NoPapers
  | _ => Table (imap (λ idx paper, (idx + start + 1, paper)) current_papers)
  end.

Definition next_page : M html :=
  λ st,
    let st := if current_page st <? total_pages st
              then set_current_page (current_page st + 1) st else st in
    Return (render_papers st) st.

Definition prev_page : M html :=
  λ st,
    let st := if 1 <? current_page st
              then set_current_page (current_page st - 1) st else st in
    Return (render_papers st) st.

(** ** Cache gate and refresh *)

(** The test of [fetch_papers_async] that answers from the cache:
    [self.last_fetch_time and (time.time() - self.last_fetch_time) <
    self.cache_duration]. [None] is false and a float is false when it
    equals zero; the difference is the rounded one. The time-to-live is the
    integer 3600, compared as the float of the same value. *)
Definition using_cached_data (last : option float) (now ttl : float) : bool :=
  match last with
  | None => false
  | Some t => negb (t =? 0)%float && (now - t <? ttl)%float
  end.

(** The gate as a question: must [fetch_papers_async] fetch again? *)
Definition needsRefresh (now : float) (last : option float) (ttl : float) : bool :=
  negb (using_cached_data last now ttl).

Definition is_empty {A} (l : list A) : bool :=
  match l with [] => true | _ => false end.

(** [max((len(self.papers) + per_page - 1) // per_page, 1)], for a page
    size that is not zero. *)
Definition page_count (n per_page : nat) : nat :=
  Nat.max ((n + per_page - 1) / per_page) 1.

(** The assignment to [self.total_pages]; dividing by a page size of
    zero raises. *)
Definition compute_total_pages : M unit :=
  λ st,
    if papers_per_page st =? 0 then raise ZeroDivisionError st
    else modify (set_total_pages
                   (page_count (length (papers st)) (papers_per_page st))) st.

(** [t_check] and [t_done] are the two readings of [time.time()], before
    and after the fetch; [past] and [new] are what the upstream source
    answers to the two corpus builds. *)
Definition fetch_papers_async (t_check t_done : float) (past new : Upstream)
    (clock : nat → Z) : M bool :=
  λ st,
    if using_cached_data (last_fetch_time st) t_check (cache_duration st)
    then Return true st
    else
      (fetch_past_papers past ;;
       fetch_new_papers new ;;
       past_papers <- get all_past_papers ;;
       latest <- get new_papers ;;
       if is_empty past_papers || is_empty latest then ret false
       else
         calculate_trending_keywords ;;
         calculate_author_activity ;;
         modify (λ st, set_raw_papers (Some (all_past_papers st)) st) ;;
         sort_papers clock ;;
         compute_total_pages ;;
         modify (set_current_page 1) ;;
         modify (set_last_fetch_time (Some t_done)) ;;
         ret true) st.

(** ** Handlers *)

Definition initialize_app (t_check t_done : float) (past new : Upstream)
    (clock : nat → Z) : M (list html) :=
  ok <- fetch_papers_async t_check t_done past new clock ;;
  if ok : bool then page <- get render_papers ;; ret [Loading; page]
  else ret [Loading; FailedFetch].

Definition change_sort_method (method : string) (clock : nat → Z) : M html :=
  let method_lower := str_lower method in
  ok <- set_sort_method method_lower clock ;;
  if ok : bool then get render_papers else ret FailedSort.

(** The states the process-wide manager can be in: any sequence of
    handler calls from the initial one, whatever the upstream source and
    the clocks say. *)
Inductive reachable : PaperManager → Prop :=
| reach_start : reachable paper_manager
| reach_initialize st t_check t_done past new clock :
    reachable st →
    reachable (state_of (initialize_app t_check t_done past new clock st))
| reach_change_sort st method clock :
    reachable st → reachable (state_of (change_sort_method method clock st))
| reach_next st : reachable st → reachable (state_of (next_page st))
| reach_prev st : reachable st → reachable (state_of (prev_page st)).

(** ** Auxiliary notions used by the statements *)

(** The state once both corpus builds have stored their result. *)
Definition fetched (past new : Upstream) (st : PaperManager) : PaperManager :=
  set_new_papers (build_corpus new) (set_all_past_papers (build_corpus past) st).

(** The state once the trend analysis has run on the historical corpus
    and [raw_papers] has been assigned. *)
Definition analysed (st : PaperManager) : PaperManager :=
  set_raw_papers (Some (all_past_papers st))
    (set_author_publication_counts
       (fold_left count_authors (all_past_papers st) (author_publication_counts st))
       (set_trending_keywords
          (map fst (take 50 (sorted_keywords (keyword_counts (all_past_papers st))))) st)).

(** The state a successful refresh ends in, [ps] being the sorted papers. *)
Definition refreshed (t_done : float) (ps : list Paper) (st : PaperManager) : PaperManager :=
  set_last_fetch_time (Some t_done)
    (set_current_page 1
       (set_total_pages (page_count (length ps) (papers_per_page st))
          (set_papers ps st))).

(** What [sort_papers] assigns to [self.papers] from the list [raw]. *)
Definition sorted_view (clock : nat → Z) (st : PaperManager) (raw : list Paper)
  : list Paper :=
  if String.eqb (sort_method st) "hot" then sort_by_score clock st raw
  else if String.eqb (sort_method st) "new" then sort_by_published (new_papers st)
  else if String.eqb (sort_method st) "rising" then sort_by_rising_score clock st raw
  else sort_by_score clock st raw.

(** What every reachable state satisfies about the stored page numbers:
    the page size is the default one, the current page lies between 1 and
    the stored [total_pages], and [total_pages] is still 1 as long as
    [raw_papers] has not been assigned. *)
Definition page_invariant (st : PaperManager) : Prop :=
  papers_per_page st = 30 ∧
  1 ≤ current_page st ≤ total_pages st ∧
  (raw_papers st = None → total_pages st = 1) ∧
  cache_duration st = 3600%float.

(** The papers one corpus build stores, in the order it stores them:
    partition after partition, each in the order the query yields. *)
Definition insertions (up : Upstream) : list Paper :=
  flat_map (λ category, yielded (up category)) CATEGORIES.

(** The last paper of [l] whose identifier is [id]. *)
Fixpoint last_inserted (id : string) (l : list Paper) : option Paper :=
  match l with
  | [] => None
  | q :: l' =>
      match last_inserted id l' with
      | Some p => Some p
      | None => if String.eqb (entry_id q) id then Some q else None
      end
  end.

(** [counts.get(name, 0)] *)
Definition activity (counts : gmap string nat) (name : string) : nat :=
  default 0 (counts !! name).

(** How many times [name] is listed by the records of [l], a record that
    lists it twice counting twice. *)
Definition listings (name : string) (l : list Paper) : nat :=
  sum_list (map (λ p, count_occ string_dec (authors p) name) l).

(** How many records of [l] list [name]. *)
Definition records_listing (name : string) (l : list Paper) : nat :=
  length (filter (λ p, name ∈ authors p) l).

(** The order a stable, largest-first sort puts two decorated elements
    in: the first does not have the smaller key and, if the keys tie, it
    came first in the input, [pos] being the position in the input. *)
Definition stable_order {K A : Type} (ltb : K → K → bool) (pos : K * A → nat)
    (a b : K * A) : Prop :=
  ltb (fst a) (fst b) = false ∧ (ltb (fst b) (fst a) = false → pos a < pos b).

(** The words a trend analysis has to count, in the order of the scan:
    record after record, the whitespace-separated tokens of the lower-cased
    title and abstract, joined by one space, that are longer than 4
    characters. *)
Definition keyword_tokens (l : list Paper) : list string :=
  flat_map (λ p, List.filter (λ word, 4 <? Str.len word)
                   (str_split (str_lower (title p +:+ " " +:+ summary p)))) l.

Definition frequency (w : string) (tokens : list string) : nat :=
  count_occ string_dec tokens w.

(** The index at which [w] is first met in the scan, or the length of
    the scan if it is never met. *)
Fixpoint first_seen (w : string) (tokens : list string) : nat :=
  match tokens with
  | [] => 0
  | x :: tokens' => if String.eqb x w then 0 else S (first_seen w tokens')
  end.

(** [a] ranks before [b]: it is more frequent, or as frequent and met
    earlier. *)
Definition ranks_before (tokens : list string) (a b : string) : Prop :=
  frequency b tokens < frequency a tokens ∨
  (frequency a tokens = frequency b tokens ∧
   first_seen a tokens < first_seen b tokens).

(** The dictionary obtained by counting the words of a scan one by one. *)
Definition count_scan (tokens : list string) : list (string * nat) :=
  fold_left (λ counts word, bump word counts) tokens [].

End Engine.

(** ** Sample inputs *)

(** The text methods of ASCII text: what [str.lower] and [str.split] do
    on the sample inputs below, which are all ASCII. *)
#[global] Instance ascii_str : PyStr := {|
  str_lower := Str.lower;
  str_split := Str.split;
  str_lower_ascii := λ _ _, eq_refl
|}.

(** Papers with pairwise distinct identifiers for [i < 200]. *)
Definition sample_paper (i : nat) : Paper :=
  {| entry_id := String (ascii_of_nat (48 + i)) EmptyString;
     title := "Sample paper";
     summary := "An abstract about lattice models";
     authors := ["A. Author"];
     published := Z.of_nat i;
     categories := ["physics.comp-ph"];
     pdf_url := None |}.

(** An upstream source that answers the [physics] query with [l] and
    fails every other query. *)
Definition only_physics (l : list Paper) : Upstream :=
  λ category,
    if String.eqb category "physics" then {| yielded := l; raised := false |}
    else {| yielded := []; raised := true |}.

Definition midnight : nat → Z := λ _, 0%Z.

(** ** Markup *)

From stdpp Require Import pretty.

Definition nl : string := String (ascii_of_nat 10) EmptyString.
Definition dq : string := String (ascii_of_nat 34) EmptyString.

(** [name="value"] *)
Definition attr (name value : string) : string :=
  name +:+ "=" +:+ dq +:+ value +:+ dq.

(** The lines of a template, each ended by a line feed. *)
Definition html_lines (l : list string) : string :=
  foldr (λ line rest, line +:+ nl +:+ rest) EmptyString l.

(** [paper.pdf_url or paper.entry_id]: [None] and the empty string are
    both false. *)
Definition paper_url (paper : Paper) : string :=
  match pdf_url paper with
  | Some (String c s) => String c s
  | _ => entry_id paper
  end.

(** [f"{time_ago_days} days ago" if time_ago_days > 0 else "today"], on
    [time_diff.days] as it is, not clamped. *)
Definition time_ago (now : Z) (paper : Paper) : string :=
  let time_ago_days := ((now - published paper) / day)%Z in
  if (0 <? time_ago_days)%Z then pretty time_ago_days +:+ " days ago" else "today".

(** [', '.join(paper.categories) if paper.categories else 'Uncategorized'] *)
Definition categories_text (paper : Paper) : string :=
  match categories paper with
  | [] => "Uncategorized"
  | l => String.concat ", " l
  end.

(** [', '.join(names) or 'Unknown']: computed by [format_paper] and not
    used by its template. *)
Definition authors_text (paper : Paper) : string :=
  match String.concat ", " (authors paper) with
  | EmptyString => "Unknown"
  | s => s
  end.

Section Markup.
(** [published_time.strftime('%Y-%m-%d')] of the standard library, on the
    publication time. *)
Variable strftime_date : Z → string.

(** [format_paper], [now] being what [datetime.now(timezone.utc)] reads. *)
Definition format_paper (now : Z) (paper : Paper) (rank : nat) : string :=
  let paper_title := title paper in
  let url := paper_url paper in
  let author_names := authors_text paper in
  let num_authors := length (authors paper) in
  let ago := time_ago now paper in
  let category_names := categories_text paper in
  nl +:+
  html_lines [
    "        <tr " +:+ attr "class" "athing" +:+ ">";
    "            <td " +:+ attr "align" "right" +:+ " " +:+ attr "valign" "top" +:+ " "
      +:+ attr "class" "title" +:+ "><span " +:+ attr "class" "rank" +:+ ">"
      +:+ pretty rank +:+ ".</span></td>";
    "            <td " +:+ attr "valign" "top" +:+ " " +:+ attr "class" "title" +:+ ">";
    "                <a " +:+ attr "href" url +:+ " " +:+ attr "class" "storylink" +:+ " "
      +:+ attr "target" "_blank" +:+ ">" +:+ paper_title +:+ "</a>";
    "            </td>";
    "        </tr>";
    "        <tr>";
    "            <td " +:+ attr "colspan" "2" +:+ " " +:+ attr "class" "subtext" +:+ ">";
    "                <span " +:+ attr "class" "score" +:+ ">" +:+ pretty num_authors
      +:+ " authors</span> | Categories: " +:+ category_names +:+ " | Published: "
      +:+ strftime_date (published paper) +:+ " | " +:+ ago;
    "            </td>";
    "        </tr>";
    "        <tr " +:+ attr "class" "spacer" +:+ "><td " +:+ attr "colspan" "2" +:+ "></td></tr>"
  ] +:+ "        ".

(** The text a handler returns for what it hands to the page. [clock i]
    is what [datetime.now(timezone.utc)] reads while the [i]-th row is
    formatted. *)
Definition html_text (clock : nat → Z) (h : html) : string :=
  match h with
  | Table rows =>
      let papers_html :=
        String.concat EmptyString
          (imap (λ i row, format_paper (clock i) row.2 row.1) rows) in
      nl +:+
      html_lines [
        "        <table " +:+ attr "border" "0" +:+ " " +:+ attr "cellpadding" "0" +:+ " "
          +:+ attr "cellspacing" "0" +:+ " " +:+ attr "class" "itemlist" +:+ ">";
        "            " +:+ papers_html;
        "        </table>"
      ] +:+ "        "
  | NoPapers => "<div class='no-papers'>No papers available for this page.</div>"
  | Loading => "<div class='no-papers'>Fetching papers, please wait...</div>"
  | FailedFetch =>
      "<div class='no-papers'>Failed to fetch papers. Please try again later.</div>"
  | FailedSort =>
      "<div class='no-papers'>Failed to sort papers. Please try again later.</div>"
  end.
End Markup.

(** ** Order of the input of a sort *)

(** [a] stands at an earlier index of [l] than [b]. *)
Definition occurs_before {A : Type} (l : list A) (a b : A) : Prop :=
  ∃ i j, i < j ∧ l !! i = Some a ∧ l !! j = Some b.

(** [stable_order] with the order of the input given as a relation. *)
Definition stable_desc {K A : Type} (ltb : K → K → bool)
    (before : relation (K * A)) (a b : K * A) : Prop :=
  ltb (fst a) (fst b) = false ∧ (ltb (fst b) (fst a) = false → before a b).

(** * Properties *)

(** ** Comparisons on rationals *)

Lemma Qltb_lt (a b : Q) : Qltb a b = true ↔ (a < b)%Q.
Proof.
  unfold Qltb. rewrite negb_true_iff, <- not_true_iff_false, Qle_bool_iff.
  split; [apply Qnot_le_lt | apply Qlt_not_le].
Qed.

Lemma Qltb_ge (a b : Q) : Qltb a b = false ↔ (b <= a)%Q.
Proof.
  unfold Qltb. rewrite negb_false_iff. apply Qle_bool_iff.
Qed.

Lemma Qeq_bool_false (a b : Q) : Qeq_bool a b = false ↔ ¬ (a == b)%Q.
Proof.
  rewrite <- not_true_iff_false, Qeq_bool_iff. reflexivity.
Qed.

(** ** Text *)

(** On ASCII text a character is a byte. *)
Lemma len_ascii (s : string) : Str.isascii s = true → Str.len s = String.length s.
Proof.
  induction s as [|c s IH]; [reflexivity |].
  cbn [Str.isascii Str.len String.length]. unfold Str.iscontinuation.
  intros Hs. apply andb_true_iff in Hs as [Hc Hs]. apply Nat.ltb_lt in Hc.
  replace (128 <=? nat_of_ascii c) with false by (symmetry; apply Nat.leb_gt, Hc).
  simpl. rewrite IH by exact Hs. reflexivity.
Qed.

(** [len] counts code points, not bytes: "café" has four, its last one
    encoded on two bytes. *)
Example len_counts_code_points : Str.len "café" = 4 ∧ String.length "café" = 5.
Proof. split; reflexivity. Qed.

(** ** The cache gate *)

Lemma using_cached_data_true (last : option float) (now ttl : float) :
  using_cached_data last now ttl = true ↔
  ∃ t, last = Some t ∧ (t =? 0)%float = false ∧ (now - t <? ttl)%float = true.
Proof.
  unfold using_cached_data. destruct last as [t|].
  - rewrite andb_true_iff, negb_true_iff. split.
    + intros [Hz Hlt]. exists t. auto.
    + intros (t' & Heq & Hz & Hlt). injection Heq as <-. auto.
  - split; [discriminate | intros (t & Heq & _); discriminate].
Qed.


(** The elapsed time the gate compares is the rounded difference of the
    two readings: between the floats nearest to 0.1 and to 3600.1 it is
    3600 and the gate asks for a refresh. *)
Example needsRefresh_rounds_elapsed_time :
  (0x1.c203333333333p+11 - 0x1.999999999999ap-4 =? 3600)%float = true ∧
  needsRefresh 0x1.c203333333333p+11 (Some 0x1.999999999999ap-4%float) 3600 = true.
Proof. split; reflexivity. Qed.



(** ** Sorting the view *)

Lemma sort_papers_raw {py : PyStr} (clock : nat → Z) (st : PaperManager) (raw : list Paper) :
  raw_papers st = Some raw →
  sort_papers clock st = Return tt (set_papers (sorted_view clock st raw) st).
Proof.
  intros Hraw. unfold sort_papers, sorted_view, bind, get_raw_papers, modify.
  rewrite Hraw.
  destruct (String.eqb (sort_method st) "hot"); [reflexivity |].
  destruct (String.eqb (sort_method st) "new"); [reflexivity |].
  destruct (String.eqb (sort_method st) "rising"); reflexivity.
Qed.

Lemma sort_papers_new {py : PyStr} (clock : nat → Z) (st : PaperManager) :
  sort_method st = "new" →
  sort_papers clock st = Return tt (set_papers (sort_by_published (new_papers st)) st).
Proof.
  intros Hm. unfold sort_papers. rewrite Hm. reflexivity.
Qed.

Lemma sort_papers_unset {py : PyStr} (clock : nat → Z) (st : PaperManager) :
  raw_papers st = None → sort_method st ≠ "new" →
  sort_papers clock st = Raise AttributeError st.
Proof.
  intros Hraw Hm. unfold sort_papers, bind, get_raw_papers. rewrite Hraw.
  destruct (String.eqb (sort_method st) "hot"); [reflexivity |].
  destruct (String.eqb_spec (sort_method st) "new") as [Heq | _]; [contradiction |].
  destruct (String.eqb (sort_method st) "rising"); reflexivity.
Qed.

(** ** The refresh, case by case *)

Lemma fetch_papers_async_unfold {py : PyStr} (t_check t_done : float) (past new : Upstream)
    (clock : nat → Z) (st : PaperManager) :
  fetch_papers_async t_check t_done past new clock st =
  if using_cached_data (last_fetch_time st) t_check (cache_duration st)
  then Return true st
  else if is_empty (build_corpus past) || is_empty (build_corpus new)
  then Return false (fetched past new st)
  else
    let st1 := analysed (fetched past new st) in
    let ps := sorted_view clock st1 (build_corpus past) in
    if papers_per_page st =? 0 then Raise ZeroDivisionError (set_papers ps st1)
    else Return true (refreshed t_done ps st1).
Proof.
  unfold fetch_papers_async.
  destruct (using_cached_data _ _ _); [reflexivity |].
  cbv [bind fetch_past_papers fetch_new_papers modify get ret
       calculate_trending_keywords calculate_author_activity compute_total_pages].
  change (new_papers (set_new_papers _ _)) with (build_corpus new).
  change (all_past_papers (set_new_papers (build_corpus new) _)) with (build_corpus past).
  destruct (is_empty (build_corpus past) || is_empty (build_corpus new)); [reflexivity |].
  rewrite (sort_papers_raw clock _ (build_corpus past)) by reflexivity.
  change (papers_per_page (set_papers _ _)) with (papers_per_page st).
  cbv zeta.
  destruct (papers_per_page st =? 0); reflexivity.
Qed.

(** C1, counterexample: the historical build stores one paper, the latest
    build stores none, and the refresh answers [False]. *)
Lemma refresh_fails_with_one_corpus :
  let paper :=
    {| entry_id := "http://arxiv.org/abs/2401.00001v1"; title := "Lattice models";
       summary := "A study of lattice models"; authors := ["A. Author"];
       published := 0; categories := ["physics.comp-ph"]; pdf_url := None |} in
  let past : Upstream :=
    λ category, if String.eqb category "physics"
                then {| yielded := [paper]; raised := false |}
                else {| yielded := []; raised := false |} in
  let new : Upstream := λ _, {| yielded := []; raised := true |} in
  let o := fetch_papers_async 10 20 past new (λ _, 0%Z) paper_manager in
  returned o = Some false ∧
  all_past_papers (state_of o) = [paper] ∧
  new_papers (state_of o) = [].
Proof. vm_compute. repeat split. Qed.

(** C1, amended: a refresh attempt that passes the cache gate returns
    [False] exactly when at least one of the two corpora is empty after the
    two builds, and returns [True] exactly when both are non-empty; a single
    non-empty corpus is not accepted. Either way the two corpora are what
    the builds stored. *)
Theorem refresh_fails_iff_some_corpus_empty {py : PyStr} (t_check t_done : float)
    (past new : Upstream) (clock : nat → Z) (st : PaperManager) :
  using_cached_data (last_fetch_time st) t_check (cache_duration st) = false →
  papers_per_page st ≠ 0 →
  let o := fetch_papers_async t_check t_done past new clock st in
  (returned o = Some false ↔ build_corpus past = [] ∨ build_corpus new = []) ∧
  (returned o = Some true ↔ build_corpus past ≠ [] ∧ build_corpus new ≠ []) ∧
  all_past_papers (state_of o) = build_corpus past ∧
  new_papers (state_of o) = build_corpus new.
Proof.
  intros Hstale Hpp o. subst o.
  rewrite fetch_papers_async_unfold, Hstale.
  apply Nat.eqb_neq in Hpp. rewrite Hpp. cbv zeta.
  assert (Hst : all_past_papers (fetched past new st) = build_corpus past ∧
                new_papers (fetched past new st) = build_corpus new)
    by (split; reflexivity).
  destruct Hst as [Hpast Hnew].
  destruct (build_corpus past) as [|p ps], (build_corpus new) as [|q qs];
    simpl; rewrite ?Hpast, ?Hnew;
    intuition (try discriminate; try congruence).
Qed.

(** The refresh of a fresh manager when the source answers nothing. *)
Lemma refresh_fails_iff_some_corpus_empty_witness :
  let up : Upstream := λ _, {| yielded := []; raised := false |} in
  let o := fetch_papers_async 10 20 up up (λ _, 0%Z) paper_manager in
  (returned o = Some false ↔ build_corpus up = [] ∨ build_corpus up = []) ∧
  (returned o = Some true ↔ build_corpus up ≠ [] ∧ build_corpus up ≠ []) ∧
  all_past_papers (state_of o) = build_corpus up ∧
  new_papers (state_of o) = build_corpus up.
Proof.
  intros up.
  apply (refresh_fails_iff_some_corpus_empty 10 20 up up (λ _, 0%Z) paper_manager).
  - reflexivity.
  - simpl. lia.
Defined.

(** Inside the time-to-live the call answers [True] and leaves the
    manager as it is. *)
Lemma fetch_papers_async_cached {py : PyStr} (t_check t_done : float) (past new : Upstream)
    (clock : nat → Z) (st : PaperManager) :
  needsRefresh t_check (last_fetch_time st) (cache_duration st) = false →
  fetch_papers_async t_check t_done past new clock st = Return true st.
Proof.
  unfold needsRefresh. rewrite negb_false_iff. intros Hcached.
  rewrite fetch_papers_async_unfold, Hcached. reflexivity.
Qed.

(** ** Changing the sort mode *)

Lemma sort_papers_cases {py : PyStr} (clock : nat → Z) (st : PaperManager) :
  (∃ ps, sort_papers clock st = Return tt (set_papers ps st)) ∨
  sort_papers clock st = Raise AttributeError st.
Proof.
  destruct (raw_papers st) as [raw|] eqn:Hraw.
  - left. eexists. apply sort_papers_raw. exact Hraw.
  - destruct (decide (sort_method st = "new")) as [Hm | Hm].
    + left. eexists. apply sort_papers_new. exact Hm.
    + right. apply sort_papers_unset; assumption.
Qed.

Lemma set_sort_method_unfold {py : PyStr} (method : string) (clock : nat → Z) (st : PaperManager) :
  set_sort_method method clock st =
  let chosen :=
    if bool_decide (str_lower method ∈ known_methods) then method else "hot" in
  match sort_papers clock (set_sort_method_attr (str_lower chosen) st) with
  | Return _ st' => Return true (set_current_page 1 st')
  | Raise e st' => Raise e st'
  end.
Proof.
  unfold set_sort_method, bind, modify, ret. cbv zeta.
  destruct (sort_papers clock _); reflexivity.
Qed.

(** The value [set_sort_method] hands back is never [False]: it returns
    [True], or the read of [raw_papers] raises. *)
Lemma set_sort_method_outcome {py : PyStr} (method : string) (clock : nat → Z) (st : PaperManager) :
  (∃ st', set_sort_method method clock st = Return true st' ∧ current_page st' = 1) ∨
  (∃ st', set_sort_method method clock st = Raise AttributeError st' ∧
          current_page st' = current_page st ∧ raw_papers st = None).
Proof.
  rewrite set_sort_method_unfold. cbv zeta.
  set (st1 := set_sort_method_attr _ st).
  destruct (raw_papers st) as [raw|] eqn:Hraw.
  - left. rewrite (sort_papers_raw clock st1 raw) by exact Hraw.
    eexists. split; reflexivity.
  - destruct (sort_papers_cases clock st1) as [[ps Hs] | Hs]; rewrite Hs.
    + left. eexists. split; reflexivity.
    + right. exists st1. repeat split.
Qed.

(** Once [raw_papers] has been assigned, that is after a refresh has
    succeeded, [set_sort_method] returns [True] for every input string. *)
Lemma set_sort_method_returns {py : PyStr} (method : string) (clock : nat → Z) (st : PaperManager) :
  raw_papers st ≠ None → returned (set_sort_method method clock st) = Some true.
Proof.
  intros Hraw.
  destruct (set_sort_method_outcome method clock st)
    as [(st' & -> & _) | (st' & _ & _ & Hnone)]; [reflexivity | contradiction].
Qed.

(** The branch of [change_sort_method] that answers "Failed to sort
    papers" is never taken: the handler renders the page or the exception
    of [set_sort_method] passes through it. *)
Lemma change_sort_method_outcome {py : PyStr} (method : string) (clock : nat → Z) (st : PaperManager) :
  (∃ st', change_sort_method method clock st = Return (render_papers st') st') ∨
  (∃ st', change_sort_method method clock st = Raise AttributeError st').
Proof.
  unfold change_sort_method, bind. cbv zeta.
  destruct (set_sort_method_outcome (str_lower method) clock st)
    as [(st' & -> & _) | (st' & -> & _)].
  - left. exists st'. reflexivity.
  - right. exists st'. reflexivity.
Qed.

Lemma render_papers_not_FailedSort (st : PaperManager) : render_papers st ≠ FailedSort.
Proof.
  unfold render_papers. cbv zeta.
  destruct (take _ _); discriminate.
Qed.

Lemma change_sort_method_never_fails {py : PyStr} (method : string) (clock : nat → Z)
    (st : PaperManager) :
  returned (change_sort_method method clock st) ≠ Some FailedSort.
Proof.
  destruct (change_sort_method_outcome method clock st) as [[st' ->] | [st' ->]];
    simpl; [| discriminate].
  intros [= H]. exact (render_papers_not_FailedSort st' H).
Qed.

(** C10: on the manager as [__init__] leaves it, [set_sort_method("hot")]
    does not return [True]: reading [self.raw_papers] raises
    [AttributeError], and so does the handler for the choice "Rising". The
    call has by then stored the new sort method and nothing else. *)
Theorem set_sort_method_raises_before_refresh {py : PyStr} (clock : nat → Z) :
  set_sort_method "hot" clock paper_manager = Raise AttributeError paper_manager ∧
  change_sort_method "Rising" clock paper_manager =
    Raise AttributeError (set_sort_method_attr "rising" paper_manager).
Proof.
  split.
  - rewrite set_sort_method_unfold. cbv zeta.
    rewrite !(str_lower_ascii "hot") by reflexivity. reflexivity.
  - unfold change_sort_method, bind. cbv zeta.
    rewrite (str_lower_ascii "Rising") by reflexivity.
    change (Str.lower "Rising") with "rising".
    rewrite set_sort_method_unfold. cbv zeta.
    rewrite !(str_lower_ascii "rising") by reflexivity. reflexivity.
Qed.

(** ** Reachable states *)

Lemma page_count_pos (n per_page : nat) : 1 ≤ page_count n per_page.
Proof. unfold page_count. lia. Qed.

Local Ltac page_auto :=
  unfold page_invariant in *; simpl in *; intuition (try discriminate; try lia).

Lemma page_invariant_start : page_invariant paper_manager.
Proof. page_auto. Qed.

Lemma page_invariant_fetch {py : PyStr} (t_check t_done : float) (past new : Upstream)
    (clock : nat → Z) (st : PaperManager) :
  page_invariant st →
  page_invariant (state_of (fetch_papers_async t_check t_done past new clock st)).
Proof.
  intros Hinv. rewrite fetch_papers_async_unfold.
  destruct (using_cached_data _ _ _); [exact Hinv |].
  destruct (is_empty _ || is_empty _); [page_auto |].
  cbv zeta. replace (papers_per_page st =? 0) with false
    by (destruct Hinv as [-> _]; reflexivity).
  pose proof (page_count_pos
    (length (sorted_view clock (analysed (fetched past new st)) (build_corpus past)))
    (papers_per_page st)).
  page_auto.
Qed.

Lemma page_invariant_set_sort_method {py : PyStr} (method : string) (clock : nat → Z)
    (st : PaperManager) :
  page_invariant st →
  page_invariant (state_of (set_sort_method method clock st)).
Proof.
  intros Hinv. rewrite set_sort_method_unfold. cbv zeta.
  set (st1 := set_sort_method_attr _ st).
  destruct (sort_papers_cases clock st1) as [[ps Hs] | Hs]; rewrite Hs;
    subst st1; page_auto.
Qed.

Lemma state_of_initialize_app {py : PyStr} (t_check t_done : float) (past new : Upstream)
    (clock : nat → Z) (st : PaperManager) :
  state_of (initialize_app t_check t_done past new clock st) =
  state_of (fetch_papers_async t_check t_done past new clock st).
Proof.
  unfold initialize_app, bind.
  destruct (fetch_papers_async _ _ _ _ _ st) as [[|] st' | e st']; reflexivity.
Qed.

Lemma state_of_change_sort_method {py : PyStr} (method : string) (clock : nat → Z)
    (st : PaperManager) :
  state_of (change_sort_method method clock st) =
  state_of (set_sort_method (str_lower method) clock st).
Proof.
  unfold change_sort_method, bind. cbv zeta.
  destruct (set_sort_method _ _ st) as [[|] st' | e st']; reflexivity.
Qed.

Lemma page_invariant_next_page (st : PaperManager) :
  page_invariant st → page_invariant (state_of (next_page st)).
Proof.
  intros Hinv. unfold next_page. cbv zeta.
  destruct (Nat.ltb_spec (current_page st) (total_pages st)); page_auto.
Qed.

Lemma page_invariant_prev_page (st : PaperManager) :
  page_invariant st → page_invariant (state_of (prev_page st)).
Proof.
  intros Hinv. unfold prev_page. cbv zeta.
  destruct (Nat.ltb_spec 1 (current_page st)); page_auto.
Qed.

(** The stored page numbers stay consistent with one another in every
    reachable state. *)
Lemma reachable_page_invariant {py : PyStr} (st : PaperManager) :
  reachable st → page_invariant st.
Proof.
  induction 1.
  - apply page_invariant_start.
  - rewrite state_of_initialize_app. apply page_invariant_fetch. assumption.
  - rewrite state_of_change_sort_method.
    apply page_invariant_set_sort_method. assumption.
  - apply page_invariant_next_page. assumption.
  - apply page_invariant_prev_page. assumption.
Qed.

(** C8: for every input string whose lower-cased form is not one of
    "hot", "new", "rising", [set_sort_method] does exactly what
    [set_sort_method("hot")] does (same outcome, same state, hence same
    sort mode and same ordered papers), and after every [set_sort_method]
    call on a reachable state the current page is 1. *)
Theorem set_sort_method_fallback {py : PyStr} (method : string) (clock : nat → Z)
    (st : PaperManager) :
  reachable st →
  (str_lower method ∉ known_methods →
     set_sort_method method clock st = set_sort_method "hot" clock st) ∧
  current_page (state_of (set_sort_method method clock st)) = 1 ∧
  (raw_papers st ≠ None →
     ∃ st', set_sort_method method clock st = Return true st' ∧ current_page st' = 1).
Proof.
  intros Hreach. split; [| split].
  - intros Hunknown. rewrite !set_sort_method_unfold. cbv zeta.
    rewrite (bool_decide_eq_false_2 _ Hunknown).
    destruct (bool_decide (str_lower "hot" ∈ known_methods)); reflexivity.
  - destruct (set_sort_method_outcome method clock st)
      as [(st' & -> & Hpage) | (st' & -> & Hpage & Hnone)]; simpl; [exact Hpage |].
    rewrite Hpage.
    destruct (reachable_page_invariant st Hreach) as (_ & Hb & Hone & _).
    specialize (Hone Hnone). lia.
  - intros Hraw.
    destruct (set_sort_method_outcome method clock st)
      as [(st' & Heq & Hpage) | (st' & _ & _ & Hnone)]; [eauto | contradiction].
Qed.

(** The fallback at work after a refresh of one paper. *)
Lemma set_sort_method_fallback_witness :
  let up := only_physics [sample_paper 0] in
  let st := state_of (initialize_app 1000 1010 up up midnight paper_manager) in
  (str_lower "bogus" ∉ known_methods →
     set_sort_method "bogus" midnight st = set_sort_method "hot" midnight st) ∧
  current_page (state_of (set_sort_method "bogus" midnight st)) = 1 ∧
  (raw_papers st ≠ None →
     ∃ st', set_sort_method "bogus" midnight st = Return true st' ∧
            current_page st' = 1).
Proof.
  intros up st. apply (set_sort_method_fallback "bogus" midnight st).
  apply reach_initialize, reach_start.
Defined.

(** ** The hot score as a real number *)

Section HotValue.
Local Open Scope R_scope.

Lemma Rpower_three_halves_pos (x : R) : 0 < Rpower x (3 / 2).
Proof. unfold Rpower. apply exp_pos. Qed.

Lemma Rpower_three_halves_sqr (x : R) :
  0 < x → Rpower x (3 / 2) * Rpower x (3 / 2) = x ^ 3.
Proof.
  intros Hx. rewrite <- Rpower_plus.
  replace (3 / 2 + 3 / 2) with (INR 3) by (simpl; Lra.lra).
  apply Rpower_pow. exact Hx.
Qed.

Lemma base_pos (d : Z) : (0 <= d)%Z → 0 < IZR (d + 7).
Proof. intros Hd. apply IZR_lt. lia. Qed.

Lemma hot_value_zero (d : Z) : hot_value (0%Z, d) = 0.
Proof. unfold hot_value. simpl. unfold Rdiv. apply Rmult_0_l. Qed.

Lemma hot_value_nonneg (n d : Z) : (0 <= n)%Z → 0 <= hot_value (n, d).
Proof.
  intros Hn. unfold hot_value. simpl. unfold Rdiv.
  apply Rmult_le_pos.
  - apply IZR_le. exact Hn.
  - left. apply Rinv_0_lt_compat, Rpower_three_halves_pos.
Qed.

(** With a positive numerator the value falls strictly as the age in
    days grows. *)
Lemma hot_value_decreasing (n d1 d2 : Z) :
  (0 < n)%Z → (0 <= d1 < d2)%Z → hot_value (n, d2) < hot_value (n, d1).
Proof.
  intros Hn [Hd1 Hd]. unfold hot_value. simpl. unfold Rdiv.
  apply Rmult_lt_compat_l.
  - apply IZR_lt. exact Hn.
  - apply Rinv_lt_contravar.
    + apply Rmult_lt_0_compat; apply Rpower_three_halves_pos.
    + apply Rlt_Rpower_l; [Lra.lra |]. split.
      * apply base_pos. exact Hd1.
      * apply IZR_lt. lia.
Qed.

Lemma div_lt_cross (a1 a2 x1 x2 : R) :
  0 < x1 → 0 < x2 → (a1 / x1 < a2 / x2 ↔ a1 * x2 < a2 * x1).
Proof.
  intros H1 H2.
  assert (Hp : 0 < x1 * x2) by (apply Rmult_lt_0_compat; assumption).
  replace (a1 * x2) with (a1 / x1 * (x1 * x2)) by (field; Lra.lra).
  replace (a2 * x1) with (a2 / x2 * (x1 * x2)) by (field; Lra.lra).
  split; intros H.
  - apply Rmult_lt_compat_r; assumption.
  - apply Rmult_lt_reg_r with (x1 * x2); assumption.
Qed.

Lemma sqr_lt_nonneg (u v : R) : 0 <= u → 0 <= v → (u < v ↔ u * u < v * v).
Proof.
  intros Hu Hv. split; intros H.
  - apply (Rsqr_incrst_1 u v); assumption.
  - apply (Rsqr_incrst_0 u v); assumption.
Qed.

(** The integer test [hot_ltb] decides the order of the real values. *)
Lemma hot_ltb_spec (k1 k2 : Z * Z) :
  (0 <= fst k1)%Z → (0 <= fst k2)%Z → (0 <= snd k1)%Z → (0 <= snd k2)%Z →
  (hot_ltb k1 k2 = true ↔ hot_value k1 < hot_value k2).
Proof.
  destruct k1 as [n1 d1], k2 as [n2 d2]. simpl. intros Hn1 Hn2 Hd1 Hd2.
  unfold hot_ltb, hot_value. simpl.
  pose proof (base_pos d1 Hd1) as Hb1. pose proof (base_pos d2 Hd2) as Hb2.
  pose proof (Rpower_three_halves_pos (IZR (d1 + 7))) as Hx1.
  pose proof (Rpower_three_halves_pos (IZR (d2 + 7))) as Hx2.
  pose proof (Rpower_three_halves_sqr _ Hb1) as Hs1.
  pose proof (Rpower_three_halves_sqr _ Hb2) as Hs2.
  pose proof (IZR_le _ _ Hn1) as Ha1. pose proof (IZR_le _ _ Hn2) as Ha2.
  set (x1 := Rpower (IZR (d1 + 7)) (3 / 2)) in *.
  set (x2 := Rpower (IZR (d2 + 7)) (3 / 2)) in *.
  rewrite div_lt_cross by assumption.
  rewrite sqr_lt_nonneg by (apply Rmult_le_pos; Lra.lra).
  replace (IZR n1 * x2 * (IZR n1 * x2)) with (IZR n1 ^ 2 * (x2 * x2)) by ring.
  replace (IZR n2 * x1 * (IZR n2 * x1)) with (IZR n2 ^ 2 * (x1 * x1)) by ring.
  rewrite Hs1, Hs2, !pow_IZR, <- !mult_IZR, Z.ltb_lt. simpl Z.of_nat.
  split; [apply IZR_lt | apply lt_IZR].
Qed.

End HotValue.

Lemma hot_key_nonneg {py : PyStr} (st : PaperManager) (now : Z) (p : Paper) :
  (0 <= fst (hot_key st now p))%Z ∧ (0 <= snd (hot_key st now p))%Z.
Proof. unfold hot_key, time_diff_days. simpl. lia. Qed.

(** [hot_ltb] on the keys of two papers is the comparison of their
    scores. *)
Lemma hot_ltb_calculate_score {py : PyStr} (st : PaperManager) (now1 now2 : Z) (p1 p2 : Paper) :
  hot_ltb (hot_key st now1 p1) (hot_key st now2 p2) = true ↔
  (calculate_score st now1 p1 < calculate_score st now2 p2)%R.
Proof.
  unfold calculate_score. apply hot_ltb_spec; apply hot_key_nonneg.
Qed.

(** C5, counterexample: a paper without authors, scored while no keyword
    is trending, has author score 0 and keyword score 0; one day later its
    age has grown from 0 to 1 day and its hot score is still 0. *)
Lemma hot_score_constant_at_zero :
  let p := {| entry_id := "http://arxiv.org/abs/2401.00002v1"; title := "Notes";
              summary := "Short notes"; authors := []; published := 0;
              categories := []; pdf_url := None |} in
  (time_diff_days 0 p < time_diff_days day p)%Z ∧
  author_activity_score paper_manager p = 0 ∧
  keyword_score paper_manager p = 0 ∧
  calculate_score paper_manager day p = calculate_score paper_manager 0 p.
Proof.
  cbv zeta. split; [reflexivity |]. split; [reflexivity |]. split; [reflexivity |].
  unfold calculate_score, hot_key. simpl fst. rewrite !hot_value_zero. reflexivity.
Qed.

(** C5, amended: with the author score and the keyword score held fixed,
    the hot score [(a + k) / (age + 7) ** 1.5] strictly decreases as the
    age in days increases whenever [a + k] is positive; when [a + k] is 0
    the score is 0 at every age. *)
Theorem hot_score_decreases_with_age {py : PyStr} (st1 st2 : PaperManager) (now1 now2 : Z)
    (p1 p2 : Paper) :
  author_activity_score st1 p1 = author_activity_score st2 p2 →
  keyword_score st1 p1 = keyword_score st2 p2 →
  (time_diff_days now1 p1 < time_diff_days now2 p2)%Z →
  (0 < author_activity_score st1 p1 + keyword_score st1 p1 →
     (calculate_score st2 now2 p2 < calculate_score st1 now1 p1)%R) ∧
  (author_activity_score st1 p1 + keyword_score st1 p1 = 0 →
     calculate_score st2 now2 p2 = 0%R ∧ calculate_score st1 now1 p1 = 0%R).
Proof.
  intros Ha Hk Hage. unfold calculate_score, hot_key. rewrite <- Ha, <- Hk.
  split.
  - intros Hpos. apply hot_value_decreasing; [lia |].
    split; [unfold time_diff_days; lia | exact Hage].
  - intros ->. simpl Z.of_nat. split; apply hot_value_zero.
Qed.

(** One paper by an author of activity 5, scored today and a day later. *)
Lemma hot_score_decreases_with_age_witness :
  let p := {| entry_id := "http://arxiv.org/abs/2401.00003v1"; title := "Notes";
              summary := "Short notes"; authors := ["A. Author"]; published := 0;
              categories := []; pdf_url := None |} in
  let st := set_author_publication_counts {["A. Author" := 5]} paper_manager in
  (0 < author_activity_score st p + keyword_score st p →
     (calculate_score st day p < calculate_score st 0 p)%R) ∧
  (author_activity_score st p + keyword_score st p = 0 →
     calculate_score st day p = 0%R ∧ calculate_score st 0 p = 0%R).
Proof.
  intros p st.
  apply (hot_score_decreases_with_age st st 0 day p p); reflexivity.
Defined.

(** ** The rising score *)

(** C7: for every record, when every whitespace-split token of its
    lower-cased title and abstract (joined by one space) is one of the
    trending keywords, the novelty count is 0 and the rising score
    [novelty / (age + 1)] is 0, whatever the current time. The lower-casing
    and the splitting are Python's, on any text. *)
Theorem rising_score_zero_inside_trend {py : PyStr} (st : PaperManager) (now : Z)
    (p : Paper) :
  Forall (λ word, word ∈ trending_keywords st)
    (str_split (str_lower (title p +:+ " " +:+ summary p))) →
  novelty_score st p = 0 ∧ (calculate_rising_score st now p == 0)%Q.
Proof.
  intros Hall.
  assert (Hnov : novelty_score st p = 0).
  { unfold novelty_score, paper_text. cbv zeta. apply size_empty_iff.
    rewrite Forall_forall in Hall. intros w.
    rewrite elem_of_difference, !elem_of_list_to_set. split.
    - intros [Hw Hnot]. destruct Hnot. apply Hall, Hw.
    - intros Hw. destruct (not_elem_of_empty (C := gset string) w Hw). }
  split; [exact Hnov |].
  unfold calculate_rising_score. rewrite Hnov. reflexivity.
Qed.

(** A paper whose two distinct tokens are both trending. *)
Lemma rising_score_zero_inside_trend_witness :
  let p := {| entry_id := "http://arxiv.org/abs/2401.00004v1";
              title := "Quantum Gravity"; summary := "gravity  quantum";
              authors := ["A. Author"]; published := 0;
              categories := []; pdf_url := None |} in
  let st := set_trending_keywords ["gravity"; "quantum"; "fields"] paper_manager in
  novelty_score st p = 0 ∧ (calculate_rising_score st day p == 0)%Q.
Proof.
  intros p st. apply (rising_score_zero_inside_trend st day p).
  vm_compute. repeat constructor.
Defined.

(** ** Dictionaries *)

Section DictFacts.
Context {V : Type}.
Implicit Types (k : string) (v : V) (d : list (string * V)).

Lemma dict_get_set_eq k v d : dict_get k (dict_set k v d) = Some v.
Proof.
  induction d as [|[k' v'] d IH]; simpl.
  - rewrite String.eqb_refl. reflexivity.
  - destruct (String.eqb_spec k' k) as [-> | Hne]; simpl.
    + rewrite String.eqb_refl. reflexivity.
    + apply String.eqb_neq in Hne. rewrite Hne. exact IH.
Qed.

Lemma dict_get_set_ne k k' v d :
  k ≠ k' → dict_get k' (dict_set k v d) = dict_get k' d.
Proof.
  intros Hne. induction d as [|[k0 v0] d IH]; simpl.
  - apply String.eqb_neq in Hne. rewrite Hne. reflexivity.
  - destruct (String.eqb_spec k0 k) as [-> | Hne0]; simpl.
    + apply String.eqb_neq in Hne. rewrite Hne. reflexivity.
    + destruct (String.eqb k0 k'); [reflexivity | exact IH].
Qed.

Lemma dict_get_None k d : dict_get k d = None ↔ k ∉ dict_keys d.
Proof.
  induction d as [|[k' v'] d IH]; simpl.
  - split; [intros _; apply not_elem_of_nil | reflexivity].
  - rewrite not_elem_of_cons. destruct (String.eqb_spec k' k) as [-> | Hne].
    + split; [discriminate | intros [Hk _]; contradiction].
    + rewrite IH. split; [intros Hk; split; [congruence | exact Hk] | intros [_ Hk]; exact Hk].
Qed.

Lemma dict_get_Some k v d : dict_get k d = Some v → (k, v) ∈ d.
Proof.
  induction d as [|[k' v'] d IH]; simpl; [discriminate |].
  destruct (String.eqb_spec k' k) as [-> | Hne].
  - intros [= ->]. apply list_elem_of_here.
  - intros Hget. apply list_elem_of_further, IH, Hget.
Qed.

Lemma dict_get_elem k v d : NoDup (dict_keys d) → (k, v) ∈ d → dict_get k d = Some v.
Proof.
  induction d as [|[k' v'] d IH]; simpl; intros Hnd Hin.
  - apply elem_of_nil in Hin. contradiction.
  - apply NoDup_cons in Hnd as [Hfresh Hnd].
    apply elem_of_cons in Hin as [[= -> ->] | Hin].
    + rewrite String.eqb_refl. reflexivity.
    + destruct (String.eqb_spec k' k) as [-> | Hne]; [| apply IH; assumption].
      destruct Hfresh. apply (list_elem_of_fmap_2 fst) in Hin. exact Hin.
Qed.

Lemma dict_keys_set k v d :
  dict_keys (dict_set k v d) =
  if bool_decide (k ∈ dict_keys d) then dict_keys d else dict_keys d ++ [k].
Proof.
  induction d as [|[k' v'] d IH]; simpl; [reflexivity |].
  destruct (String.eqb_spec k' k) as [-> | Hne]; simpl.
  - rewrite bool_decide_eq_true_2 by apply list_elem_of_here. reflexivity.
  - rewrite IH.
    destruct (bool_decide_reflect (k ∈ dict_keys d)) as [Hin | Hout].
    + rewrite bool_decide_eq_true_2 by (apply list_elem_of_further, Hin). reflexivity.
    + rewrite bool_decide_eq_false_2; [reflexivity |].
      rewrite not_elem_of_cons. split; [congruence | exact Hout].
Qed.

Lemma dict_set_NoDup k v d : NoDup (dict_keys d) → NoDup (dict_keys (dict_set k v d)).
Proof.
  intros Hnd. rewrite dict_keys_set.
  destruct (bool_decide_reflect (k ∈ dict_keys d)) as [Hin | Hout]; [exact Hnd |].
  apply NoDup_app. split; [exact Hnd |]. split.
  - intros x Hx Hx'. apply list_elem_of_singleton in Hx' as ->. contradiction.
  - apply NoDup_singleton.
Qed.

Lemma dict_set_elem k v k' v' d :
  (k', v') ∈ dict_set k v d → (k' = k ∧ v' = v) ∨ (k', v') ∈ d.
Proof.
  induction d as [|[k0 v0] d IH]; simpl.
  - intros Hin. apply list_elem_of_singleton in Hin as [= -> ->]. left. split; reflexivity.
  - destruct (String.eqb k0 k).
    + intros Hin. apply elem_of_cons in Hin as [[= -> ->] | Hin].
      * left. split; reflexivity.
      * right. apply list_elem_of_further, Hin.
    + intros Hin. apply elem_of_cons in Hin as [[= -> ->] | Hin].
      * right. apply list_elem_of_here.
      * destruct (IH Hin) as [Hl | Hr]; [left; exact Hl |].
        right. apply list_elem_of_further, Hr.
Qed.

End DictFacts.

(** ** Building a corpus *)

Section Corpus.
Implicit Types (d : list (string * Paper)) (l : list Paper) (p q : Paper).

Let store d p := dict_set (entry_id p) p d.

Lemma fold_store_results (up : Upstream) (cats : list string) d :
  fold_left (λ d category, store_results d (up category)) cats d =
  fold_left store (flat_map (λ category, yielded (up category)) cats) d.
Proof.
  revert d. induction cats as [|c cats IH]; intros d; simpl; [reflexivity |].
  rewrite fold_left_app. apply IH.
Qed.

Lemma build_corpus_fold (up : Upstream) :
  build_corpus up = dict_values (fold_left store (insertions up) []).
Proof. unfold build_corpus, insertions. rewrite fold_store_results. reflexivity. Qed.

Lemma stored_get l d (k : string) :
  dict_get k (fold_left store l d) =
  match last_inserted k l with
  | Some p => Some p
  | None => dict_get k d
  end.
Proof.
  revert d. induction l as [|q l IH]; intros d; simpl; [reflexivity |].
  rewrite IH. destruct (last_inserted k l) as [p|]; [reflexivity |].
  unfold store. destruct (String.eqb_spec (entry_id q) k) as [<- | Hne].
  - apply dict_get_set_eq.
  - apply dict_get_set_ne, Hne.
Qed.

Lemma stored_NoDup l d :
  NoDup (dict_keys d) → NoDup (dict_keys (fold_left store l d)).
Proof.
  revert d. induction l as [|q l IH]; intros d Hnd; simpl; [exact Hnd |].
  apply IH, dict_set_NoDup, Hnd.
Qed.

Lemma stored_keyed l d :
  Forall (λ kv, entry_id kv.2 = kv.1) d →
  Forall (λ kv, entry_id kv.2 = kv.1) (fold_left store l d).
Proof.
  revert d. induction l as [|q l IH]; intros d Hd; simpl; [exact Hd |].
  apply IH. rewrite Forall_forall in Hd |- *. intros [k v] Hin.
  apply dict_set_elem in Hin as [[-> ->] | Hin]; [reflexivity |].
  apply (Hd _ Hin).
Qed.

Lemma keyed_keys d :
  Forall (λ kv, entry_id kv.2 = kv.1) d → map entry_id (dict_values d) = dict_keys d.
Proof.
  induction 1 as [|[k v] d Hkv _ IH]; simpl; [reflexivity |].
  simpl in Hkv. rewrite Hkv. f_equal. exact IH.
Qed.

Lemma last_inserted_Some (id : string) l p :
  last_inserted id l = Some p → entry_id p = id ∧ p ∈ l.
Proof.
  induction l as [|q l IH]; simpl; [discriminate |].
  destruct (last_inserted id l) as [p'|].
  - intros [= ->]. destruct (IH eq_refl) as [Hid Hin].
    split; [exact Hid | apply list_elem_of_further, Hin].
  - destruct (String.eqb_spec (entry_id q) id) as [Hid | _]; [| discriminate].
    intros [= ->]. split; [exact Hid | apply list_elem_of_here].
Qed.

Lemma last_inserted_is_Some l q : q ∈ l → is_Some (last_inserted (entry_id q) l).
Proof.
  induction 1 as [q l | q q' l _ IH]; simpl.
  - destruct (last_inserted (entry_id q) l); [eauto |].
    rewrite String.eqb_refl. eauto.
  - destruct IH as [p ->]. eauto.
Qed.

Lemma filter_unique_key l p :
  NoDup (map entry_id l) → p ∈ l →
  filter (λ r, entry_id r = entry_id p) l = [p].
Proof.
  induction l as [|r l IH]; simpl; intros Hnd Hin.
  - apply elem_of_nil in Hin. contradiction.
  - apply NoDup_cons in Hnd as [Hfresh Hnd].
    apply elem_of_cons in Hin as [-> | Hin].
    + rewrite filter_cons_True by reflexivity. f_equal.
      apply elem_of_nil_inv. intros x Hx.
      apply list_elem_of_filter in Hx as [Hid Hx].
      apply Hfresh. rewrite <- Hid. apply (list_elem_of_fmap_2 entry_id), Hx.
    + rewrite filter_cons_False; [apply IH; assumption |].
      intros Hid. apply Hfresh. rewrite Hid.
      apply (list_elem_of_fmap_2 entry_id), Hin.
Qed.

(** C9: in a corpus build every identifier yielded by some partition
    query ends with exactly one record, the corpus holds no other
    identifier, and the record kept for an identifier is the one inserted
    last under it. *)
Theorem build_corpus_dedup (up : Upstream) :
  NoDup (map entry_id (build_corpus up)) ∧
  (∀ p, p ∈ build_corpus up ↔ last_inserted (entry_id p) (insertions up) = Some p) ∧
  (∀ q, q ∈ insertions up →
     ∃ p, last_inserted (entry_id q) (insertions up) = Some p ∧
          filter (λ r, entry_id r = entry_id q) (build_corpus up) = [p]) ∧
  (∀ p, p ∈ build_corpus up → entry_id p ∈ map entry_id (insertions up)).
Proof.
  rewrite build_corpus_fold.
  set (l := insertions up). set (d := fold_left store l []).
  assert (Hnd : NoDup (dict_keys d)) by (apply stored_NoDup; constructor).
  assert (Hkeyed : Forall (λ kv, entry_id kv.2 = kv.1) d)
    by (apply stored_keyed; constructor).
  assert (Hget : ∀ k, dict_get k d = last_inserted k l).
  { intros k. unfold d. rewrite stored_get.
    destruct (last_inserted k l); reflexivity. }
  assert (Hids : NoDup (map entry_id (dict_values d)))
    by (rewrite keyed_keys; assumption).
  assert (Hmem : ∀ p, p ∈ dict_values d ↔ last_inserted (entry_id p) l = Some p).
  { intros p. rewrite <- Hget. split.
    - intros Hin. apply list_elem_of_fmap in Hin as ([k v] & -> & Hin).
      rewrite Forall_forall in Hkeyed. rewrite (Hkeyed _ Hin).
      apply dict_get_elem; assumption.
    - intros Hp. apply dict_get_Some in Hp.
      apply (list_elem_of_fmap_2 snd) in Hp. exact Hp. }
  split; [exact Hids |]. split; [exact Hmem |]. split.
  - intros q Hq. destruct (last_inserted_is_Some l q Hq) as [p Hp].
    exists p. split; [exact Hp |].
    destruct (last_inserted_Some _ _ _ Hp) as [Hid _].
    rewrite <- Hid. apply filter_unique_key; [exact Hids |].
    apply Hmem. rewrite Hid. exact Hp.
  - intros p Hp. apply Hmem, last_inserted_Some in Hp as [_ Hin].
    apply (list_elem_of_fmap_2 entry_id), Hin.
Qed.

End Corpus.

Example build_corpus_overwrites :
  let a1 := sample_paper 1 in
  let a2 := {| entry_id := entry_id a1; title := "Revised"; summary := summary a1;
               authors := authors a1; published := 7; categories := ["math.MP"];
               pdf_url := None |} in
  let b := sample_paper 2 in
  let up : Upstream :=
    λ category,
      if String.eqb category "physics" then {| yielded := [a1; b]; raised := false |}
      else if String.eqb category "math" then {| yielded := [a2]; raised := true |}
      else {| yielded := []; raised := false |} in
  build_corpus up = [a2; b].
Proof. reflexivity. Qed.

(** ** The author-activity index *)

Lemma activity_count_author (counts : gmap string nat) (a name : string) :
  activity (count_author counts a) name =
  activity counts name + (if decide (a = name) then 1 else 0).
Proof.
  unfold activity, count_author.
  destruct (decide (a = name)) as [-> | Hne].
  - rewrite lookup_insert_eq. reflexivity.
  - rewrite lookup_insert_ne by exact Hne. simpl. lia.
Qed.

Lemma activity_count_authors (counts : gmap string nat) (p : Paper) (name : string) :
  activity (count_authors counts p) name =
  activity counts name + count_occ string_dec (authors p) name.
Proof.
  unfold count_authors. generalize (authors p) as l. intros l. revert counts.
  induction l as [|a l IH]; intros counts; simpl; [lia |].
  rewrite IH, activity_count_author.
  destruct (string_dec a name) as [-> | Hne].
  - rewrite decide_True by reflexivity. lia.
  - rewrite decide_False by exact Hne. lia.
Qed.

(** The loop adds, to whatever the index held, the number of listings of
    each name in the corpus. *)
Lemma activity_fold (l : list Paper) (counts : gmap string nat) (name : string) :
  activity (fold_left count_authors l counts) name =
  activity counts name + listings name l.
Proof.
  revert counts. induction l as [|p l IH]; intros counts; simpl.
  - unfold listings. simpl. lia.
  - rewrite IH, activity_count_authors. unfold listings. simpl. lia.
Qed.

Lemma count_occ_NoDup (name : string) (l : list string) :
  NoDup l → count_occ string_dec l name = if bool_decide (name ∈ l) then 1 else 0.
Proof.
  induction 1 as [|a l Hfresh _ IH]; simpl; [reflexivity |].
  destruct (string_dec a name) as [-> | Hne].
  - rewrite bool_decide_eq_true_2 by apply list_elem_of_here.
    rewrite IH, bool_decide_eq_false_2 by exact Hfresh. reflexivity.
  - rewrite IH. apply (f_equal (λ b : bool, if b then 1 else 0)).
    apply bool_decide_ext. rewrite elem_of_cons. intuition congruence.
Qed.

(** Where no record lists a name twice, listings are records. *)
Lemma listings_records (name : string) (l : list Paper) :
  Forall (λ p, NoDup (authors p)) l → listings name l = records_listing name l.
Proof.
  unfold listings, records_listing.
  induction 1 as [|p l Hp _ IH]; simpl; [reflexivity |].
  rewrite IH, (count_occ_NoDup _ _ Hp).
  destruct (bool_decide_reflect (name ∈ authors p)) as [Hin | Hout].
  - rewrite filter_cons_True by exact Hin. reflexivity.
  - rewrite filter_cons_False by exact Hout. reflexivity.
Qed.

(** A refresh that succeeds leaves, for every name, the count it found
    plus the listings of the name in the new historical corpus. *)
Lemma refresh_adds_listings {py : PyStr} (t_check t_done : float) (past new : Upstream)
    (clock : nat → Z) (st st' : PaperManager) (name : string) :
  using_cached_data (last_fetch_time st) t_check (cache_duration st) = false →
  fetch_papers_async t_check t_done past new clock st = Return true st' →
  all_past_papers st' = build_corpus past ∧
  activity (author_publication_counts st') name =
    activity (author_publication_counts st) name + listings name (all_past_papers st').
Proof.
  intros Hstale. rewrite fetch_papers_async_unfold, Hstale.
  destruct (is_empty _ || is_empty _); [discriminate |].
  cbv zeta. destruct (papers_per_page st =? 0); [discriminate |].
  intros [= <-]. split; [reflexivity |]. apply activity_fold.
Qed.

(** C2: two refreshes in a row, the second after the time-to-live has
    expired, both fetching the same single paper by "A. Author". The
    historical corpus holds one record listing the author and the index
    says 2: the second refresh added to the counts of the first. *)
Theorem author_index_accumulates_across_refreshes :
  let up := only_physics [sample_paper 0] in
  let st1 := state_of (fetch_papers_async 1000 1010 up up midnight paper_manager) in
  let o2 := fetch_papers_async 5000 5010 up up midnight st1 in
  author_publication_counts st1 !! "A. Author" = Some 1 ∧
  returned o2 = Some true ∧
  all_past_papers (state_of o2) = [sample_paper 0] ∧
  records_listing "A. Author" (all_past_papers (state_of o2)) = 1 ∧
  author_publication_counts (state_of o2) !! "A. Author" = Some 2.
Proof. vm_compute. repeat split. Qed.

(** ** Pagination *)

Lemma next_page_at_last (st : PaperManager) :
  current_page st = total_pages st → next_page st = Return (render_papers st) st.
Proof.
  intros Heq. unfold next_page. cbv zeta.
  rewrite Heq, Nat.ltb_irrefl. reflexivity.
Qed.

Lemma prev_page_at_first (st : PaperManager) :
  current_page st = 1 → prev_page st = Return (render_papers st) st.
Proof.
  intros Heq. unfold prev_page. cbv zeta. rewrite Heq. reflexivity.
Qed.

(** A refresh that succeeds stores the page count of the view it sorted
    and goes back to page 1. *)
Lemma refresh_total_pages {py : PyStr} (t_check t_done : float) (past new : Upstream)
    (clock : nat → Z) (st st' : PaperManager) :
  using_cached_data (last_fetch_time st) t_check (cache_duration st) = false →
  fetch_papers_async t_check t_done past new clock st = Return true st' →
  total_pages st' = page_count (length (papers st')) (papers_per_page st') ∧
  current_page st' = 1.
Proof.
  intros Hstale. rewrite fetch_papers_async_unfold, Hstale.
  destruct (is_empty _ || is_empty _); [discriminate |].
  cbv zeta. destruct (papers_per_page st =? 0); [discriminate |].
  intros [= <-]. split; reflexivity.
Qed.

(** In every reachable state the current page lies between 1 and the
    stored [total_pages]. *)
Lemma reachable_page_bounds {py : PyStr} (st : PaperManager) :
  reachable st → 1 ≤ current_page st ≤ total_pages st.
Proof. intros Hreach. apply (reachable_page_invariant st Hreach). Qed.

(** C3: the historical build stores 31 papers and the latest build 1;
    the refresh succeeds with [total_pages = 2]. Choosing "New" sorts the
    single latest paper and leaves [total_pages] at 2, so [next_page]
    moves to page 2 although the sorted sequence has one page: the state is
    reachable, its page number exceeds [ceil(count / pageSize)], and the
    page shown is empty. *)
Theorem page_exceeds_page_count_after_sort_change :
  let past := only_physics (map sample_paper (seq 0 31)) in
  let new := only_physics [sample_paper 0] in
  let st1 := state_of (initialize_app 1000 1010 past new midnight paper_manager) in
  let st2 := state_of (change_sort_method "New" midnight st1) in
  let st3 := state_of (next_page st2) in
  reachable st3 ∧
  total_pages st1 = 2 ∧
  length (papers st3) = 1 ∧
  page_count (length (papers st3)) (papers_per_page st3) = 1 ∧
  current_page st3 = 2 ∧
  render_papers st3 = NoPapers.
Proof.
  cbv zeta. split.
  - apply reach_next, reach_change_sort, reach_initialize, reach_start.
  - vm_compute. repeat split.
Qed.

(** ** The stable sort *)

Section SortFacts.
Context {K A : Type} (ltb : K → K → bool) (pos : K * A → nat).
Hypothesis ltb_asym : ∀ x y, ltb x y = true → ltb y x = false.
Hypothesis ltb_negtrans : ∀ x y z, ltb x y = false → ltb y z = false → ltb x z = false.

Lemma insert_desc_perm (x : K * A) (l : list (K * A)) :
  insert_desc ltb x l ≡ₚ x :: l.
Proof.
  induction l as [|y l IH]; simpl; [reflexivity |].
  destruct (ltb (fst x) (fst y)); [| reflexivity].
  rewrite IH. apply Permutation_swap.
Qed.

Lemma sort_desc_perm (l : list (K * A)) : sort_desc ltb l ≡ₚ l.
Proof.
  induction l as [|x l IH]; simpl; [reflexivity |].
  rewrite insert_desc_perm, IH. reflexivity.
Qed.

Lemma insert_desc_sorted (x : K * A) (l : list (K * A)) :
  StronglySorted (stable_order ltb pos) l →
  Forall (λ y, pos x < pos y) l →
  StronglySorted (stable_order ltb pos) (insert_desc ltb x l).
Proof.
  induction l as [|y l IH]; simpl; intros Hsorted Hpos.
  - repeat constructor.
  - apply StronglySorted_cons in Hsorted as [Hy Hsorted].
    apply Forall_cons in Hpos as [Hxy Hpos].
    destruct (ltb (fst x) (fst y)) eqn:Hlt.
    + apply StronglySorted_cons. split; [| apply IH; assumption].
      rewrite insert_desc_perm. apply Forall_cons. split; [| exact Hy].
      split; [apply ltb_asym, Hlt | congruence].
    + apply StronglySorted_cons. split.
      * apply Forall_cons. split; [split; [exact Hlt | intros _; exact Hxy] |].
        rewrite Forall_forall in Hy, Hpos |- *. intros z Hz.
        destruct (Hy z Hz) as [Hyz _]. split.
        -- apply (ltb_negtrans _ (fst y)); assumption.
        -- intros _. apply Hpos, Hz.
      * apply StronglySorted_cons. split; assumption.
Qed.

(** On an input whose positions increase, the output has the larger key
    first and, among equal keys, the earlier input first. *)
Lemma sort_desc_sorted (l : list (K * A)) :
  StronglySorted (λ a b, pos a < pos b) l →
  StronglySorted (stable_order ltb pos) (sort_desc ltb l).
Proof.
  induction l as [|x l IH]; simpl; intros Hsorted; [constructor |].
  apply StronglySorted_cons in Hsorted as [Hx Hsorted].
  apply insert_desc_sorted; [apply IH, Hsorted |].
  rewrite sort_desc_perm. exact Hx.
Qed.

End SortFacts.

Lemma StronglySorted_lookup {A} (R : relation A) (l : list A) (i j : nat) (a b : A) :
  StronglySorted R l → l !! i = Some a → l !! j = Some b → i < j → R a b.
Proof.
  intros Hsorted. revert i j. induction Hsorted as [|x l _ IH Hx]; intros i j Hi Hj Hlt.
  - discriminate.
  - destruct j as [|j]; [lia |]. destruct i as [|i]; simpl in *.
    + injection Hi as <-. rewrite Forall_forall in Hx.
      apply Hx. apply (list_elem_of_lookup_2 _ j), Hj.
    + apply (IH i j); [assumption | assumption | lia].
Qed.

Lemma StronglySorted_fmap_inv {A B} (f : A → B) (R : relation B) (l : list A) :
  StronglySorted R (f <$> l) → StronglySorted (λ a b, R (f a) (f b)) l.
Proof.
  induction l as [|x l IH]; simpl; intros Hsorted; [constructor |].
  apply StronglySorted_cons in Hsorted as [Hx Hsorted].
  apply StronglySorted_cons. split; [| apply IH, Hsorted].
  rewrite Forall_fmap in Hx. exact Hx.
Qed.

Lemma StronglySorted_ext {A} (R R' : relation A) (l : list A) :
  (∀ a b, a ∈ l → b ∈ l → R a b → R' a b) →
  StronglySorted R l → StronglySorted R' l.
Proof.
  induction l as [|x l IH]; intros Himp Hsorted; [constructor |].
  apply StronglySorted_cons in Hsorted as [Hx Hsorted].
  apply StronglySorted_cons. split.
  - rewrite Forall_forall in Hx |- *. intros y Hy.
    apply Himp; [apply list_elem_of_here | apply list_elem_of_further, Hy | apply Hx, Hy].
  - apply IH; [| exact Hsorted]. intros a b Ha Hb.
    apply Himp; apply list_elem_of_further; assumption.
Qed.

(** ** Counting keywords *)

Lemma frequency_zero (k : string) (tokens : list string) :
  frequency k tokens = 0 ↔ k ∉ tokens.
Proof.
  unfold frequency. rewrite list_elem_of_In. symmetry. apply count_occ_not_In.
Qed.

Lemma frequency_snoc (k w : string) (tokens : list string) :
  frequency k (tokens ++ [w]) =
  frequency k tokens + (if decide (w = k) then 1 else 0).
Proof.
  unfold frequency. rewrite count_occ_app. simpl.
  destruct (string_dec w k) as [-> | Hne].
  - rewrite decide_True by reflexivity. reflexivity.
  - rewrite decide_False by exact Hne. reflexivity.
Qed.

Lemma first_seen_lt (k : string) (tokens : list string) :
  k ∈ tokens → first_seen k tokens < length tokens.
Proof.
  induction tokens as [|x tokens IH]; simpl; intros Hin.
  - apply elem_of_nil in Hin. contradiction.
  - destruct (String.eqb_spec x k) as [-> | Hne]; [lia |].
    apply elem_of_cons in Hin as [-> | Hin]; [contradiction |].
    specialize (IH Hin). lia.
Qed.

Lemma first_seen_absent (k : string) (tokens : list string) :
  k ∉ tokens → first_seen k tokens = length tokens.
Proof.
  induction tokens as [|x tokens IH]; simpl; intros Hout; [reflexivity |].
  apply not_elem_of_cons in Hout as [Hne Hout].
  destruct (String.eqb_spec x k) as [-> | _]; [contradiction |].
  rewrite IH by exact Hout. reflexivity.
Qed.

Lemma first_seen_app_l (k : string) (tokens rest : list string) :
  k ∈ tokens → first_seen k (tokens ++ rest) = first_seen k tokens.
Proof.
  induction tokens as [|x tokens IH]; simpl; intros Hin.
  - apply elem_of_nil in Hin. contradiction.
  - destruct (String.eqb_spec x k) as [-> | Hne]; [reflexivity |].
    apply elem_of_cons in Hin as [-> | Hin]; [contradiction |].
    rewrite IH by exact Hin. reflexivity.
Qed.

Lemma first_seen_snoc_new (w : string) (tokens : list string) :
  w ∉ tokens → first_seen w (tokens ++ [w]) = length tokens.
Proof.
  induction tokens as [|x tokens IH]; simpl; intros Hout.
  - rewrite String.eqb_refl. reflexivity.
  - apply not_elem_of_cons in Hout as [Hne Hout].
    destruct (String.eqb_spec x w) as [-> | _]; [contradiction |].
    rewrite IH by exact Hout. reflexivity.
Qed.

Lemma dict_get_bump (w k : string) (d : list (string * nat)) :
  dict_get k (bump w d) =
  if decide (w = k) then Some (default 0 (dict_get w d) + 1) else dict_get k d.
Proof.
  unfold bump. destruct (decide (w = k)) as [-> | Hne].
  - apply dict_get_set_eq.
  - apply dict_get_set_ne, Hne.
Qed.

Lemma count_word_filter (words : list string) (d : list (string * nat)) :
  fold_left count_word words d =
  fold_left (λ counts word, bump word counts)
    (List.filter (λ word, 4 <? Str.len word) words) d.
Proof.
  revert d. induction words as [|w words IH]; intros d; simpl; [reflexivity |].
  rewrite IH. unfold count_word at 1.
  destruct (4 <? Str.len w); reflexivity.
Qed.

Lemma count_paper_tokens {py : PyStr} (l : list Paper) (d : list (string * nat)) :
  fold_left count_paper l d =
  fold_left (λ counts word, bump word counts) (keyword_tokens l) d.
Proof.
  revert d. induction l as [|p l IH]; intros d; simpl; [reflexivity |].
  rewrite fold_left_app, IH. unfold count_paper at 1.
  rewrite count_word_filter. reflexivity.
Qed.

(** The dictionary of the trend analysis is the count of the scan. *)
Lemma keyword_counts_tokens {py : PyStr} (l : list Paper) :
  keyword_counts l = count_scan (keyword_tokens l).
Proof. unfold keyword_counts. apply count_paper_tokens. Qed.

Lemma count_scan_snoc (tokens : list string) (w : string) :
  count_scan (tokens ++ [w]) = bump w (count_scan tokens).
Proof. unfold count_scan. rewrite fold_left_app. reflexivity. Qed.

Lemma counted_keys (tokens : list string) (d : list (string * nat)) :
  (∀ k, dict_get k d =
        if decide (frequency k tokens = 0) then None else Some (frequency k tokens)) →
  ∀ k, k ∈ dict_keys d ↔ k ∈ tokens.
Proof.
  intros Hget k. specialize (Hget k).
  destruct (decide (frequency k tokens = 0)) as [Hz | Hnz].
  - apply dict_get_None in Hget. apply frequency_zero in Hz. tauto.
  - rewrite frequency_zero in Hnz.
    assert (Hin : ¬ (k ∉ dict_keys d)).
    { rewrite <- dict_get_None, Hget. discriminate. }
    split; intros _.
    + destruct (decide (k ∈ tokens)); tauto.
    + destruct (decide (k ∈ dict_keys d)); tauto.
Qed.

(** The dictionary holds each scanned word once, with its frequency, in
    the order of first occurrence. *)
Lemma count_scan_spec (tokens : list string) :
  StronglySorted (λ a b, first_seen a tokens < first_seen b tokens)
    (dict_keys (count_scan tokens)) ∧
  (∀ k, dict_get k (count_scan tokens) =
        if decide (frequency k tokens = 0) then None else Some (frequency k tokens)).
Proof.
  induction tokens as [|w pre [IHsorted IHget]] using rev_ind.
  - split; [constructor |]. intros k. reflexivity.
  - rewrite count_scan_snoc.
    pose proof (counted_keys pre _ IHget) as Hkeys.
    assert (Hold : default 0 (dict_get w (count_scan pre)) = frequency w pre).
    { rewrite IHget. destruct (decide (frequency w pre = 0)) as [-> | _]; reflexivity. }
    split.
    + unfold bump. rewrite dict_keys_set.
      assert (Hmove : StronglySorted
                (λ a b, first_seen a (pre ++ [w]) < first_seen b (pre ++ [w]))
                (dict_keys (count_scan pre))).
      { revert IHsorted. apply StronglySorted_ext. intros a b Ha Hb Hlt.
        rewrite !first_seen_app_l by (apply Hkeys; assumption). exact Hlt. }
      destruct (bool_decide_reflect (w ∈ dict_keys (count_scan pre))) as [Hin | Hout];
        [exact Hmove |].
      apply StronglySorted_app_2; [| exact Hmove | repeat constructor].
      intros a b Ha Hb. apply list_elem_of_singleton in Hb as ->.
      apply Hkeys in Ha. rewrite Hkeys in Hout.
      rewrite first_seen_app_l by exact Ha.
      rewrite first_seen_snoc_new by exact Hout.
      apply first_seen_lt, Ha.
    + intros k. rewrite dict_get_bump, frequency_snoc, Hold.
      destruct (decide (w = k)) as [-> | Hne].
      * rewrite decide_False by lia. reflexivity.
      * rewrite Nat.add_0_r. apply IHget.
Qed.

(** ** The trending keywords *)

Lemma keyword_tokens_elem {py : PyStr} (w : string) (l : list Paper) :
  w ∈ keyword_tokens l ↔
  4 < Str.len w ∧
  ∃ p, p ∈ l ∧ w ∈ str_split (str_lower (title p +:+ " " +:+ summary p)).
Proof.
  unfold keyword_tokens. rewrite list_elem_of_In, in_flat_map. split.
  - intros (p & Hp & Hw). apply filter_In in Hw as [Hw Hlen].
    apply Nat.ltb_lt in Hlen. split; [exact Hlen |].
    exists p. rewrite !list_elem_of_In. split; assumption.
  - intros (Hlen & p & Hp & Hw). exists p.
    apply list_elem_of_In in Hp. apply list_elem_of_In in Hw.
    split; [exact Hp |]. apply filter_In. split; [exact Hw |].
    apply Nat.ltb_lt, Hlen.
Qed.

Lemma StronglySorted_lt_NoDup {A} (g : A → nat) (l : list A) :
  StronglySorted (λ a b, g a < g b) l → NoDup l.
Proof.
  induction 1 as [|x l _ IH Hx]; constructor; [| exact IH].
  intros Hin. rewrite Forall_forall in Hx. specialize (Hx x Hin). lia.
Qed.

Lemma count_scan_frequencies (tokens : list string) :
  Forall (λ kv, kv.2 = frequency kv.1 tokens) (count_scan tokens).
Proof.
  destruct (count_scan_spec tokens) as [Hsorted Hget].
  apply StronglySorted_lt_NoDup in Hsorted.
  apply Forall_forall. intros [k c] Hin. simpl.
  apply (dict_get_elem _ _ _ Hsorted) in Hin. rewrite Hget in Hin.
  destruct (decide (frequency k tokens = 0)); congruence.
Qed.

(** The words of the sorted dictionary are the scanned words, each
    ranked before every word after it. *)
Lemma sorted_keywords_ranked (tokens : list string) :
  let names := map fst (sorted_keywords (count_scan tokens)) in
  (∀ w, w ∈ names ↔ w ∈ tokens) ∧
  (∀ i j a b, names !! i = Some a → names !! j = Some b → i < j →
     ranks_before tokens a b).
Proof.
  destruct (count_scan_spec tokens) as [Hsorted Hget].
  pose proof (count_scan_frequencies tokens) as Hfreq.
  pose proof (counted_keys tokens _ Hget) as Hkeys.
  set (d := count_scan tokens) in *.
  set (dec := (λ item : string * nat, (item.2, item)) <$> d).
  set (pos := λ e : nat * (string * nat), first_seen e.2.1 tokens).
  set (out := sort_desc Nat.ltb dec).
  assert (Hview : sorted_keywords d = snd <$> out).
  { unfold sorted_keywords, sorted_reverse, out, dec.
    rewrite <- (imap_const (λ item : string * nat, (item.2, item))). reflexivity. }
  assert (Hdec : StronglySorted (λ a b, pos a < pos b) dec).
  { apply (StronglySorted_fmap_inv (λ e : nat * (string * nat), e.2.1)
             (λ a b, first_seen a tokens < first_seen b tokens)).
    unfold dec. rewrite <- list_fmap_compose. exact Hsorted. }
  assert (Hout : StronglySorted (stable_order Nat.ltb pos) out).
  { apply sort_desc_sorted; [| | exact Hdec].
    - intros x y Hlt. apply Nat.ltb_lt in Hlt. apply Nat.ltb_ge. lia.
    - intros x y z Hxy Hyz. apply Nat.ltb_ge in Hxy, Hyz. apply Nat.ltb_ge. lia. }
  assert (Hperm : out ≡ₚ dec) by apply sort_desc_perm.
  assert (Hshape : ∀ e, e ∈ out → e.1 = frequency e.2.1 tokens).
  { intros e He. rewrite Hperm in He.
    apply list_elem_of_fmap in He as (item & -> & Hitem). simpl.
    rewrite Forall_forall in Hfreq. apply (Hfreq _ Hitem). }
  assert (Hnames : map fst (sorted_keywords d)
                   = (λ e : nat * (string * nat), e.2.1) <$> out).
  { rewrite Hview. exact (eq_sym (list_fmap_compose snd fst out)). }
  cbv zeta. rewrite Hnames. split.
  - intros w. rewrite <- Hkeys. unfold dict_keys.
    assert (Hp : (λ e : nat * (string * nat), e.2.1) <$> out ≡ₚ map fst d).
    { rewrite Hperm. unfold dec. rewrite <- list_fmap_compose. reflexivity. }
    rewrite Hp. reflexivity.
  - intros i j a b Hi Hj Hlt.
    rewrite list_lookup_fmap in Hi, Hj.
    destruct (out !! i) as [ea|] eqn:Hea; [| discriminate].
    destruct (out !! j) as [eb|] eqn:Heb; [| discriminate].
    simpl in Hi, Hj. injection Hi as <-. injection Hj as <-.
    destruct (StronglySorted_lookup _ _ _ _ _ _ Hout Hea Heb Hlt) as [Hge Htie].
    pose proof (Hshape ea (list_elem_of_lookup_2 _ _ _ Hea)) as Hfa.
    pose proof (Hshape eb (list_elem_of_lookup_2 _ _ _ Heb)) as Hfb.
    rewrite Hfa, Hfb in Hge, Htie. apply Nat.ltb_ge in Hge.
    unfold ranks_before.
    destruct (decide (frequency eb.2.1 tokens < frequency ea.2.1 tokens))
      as [Hless | Hsame]; [left; exact Hless |].
    right. split; [lia |]. apply Htie, Nat.ltb_ge. lia.
Qed.

Example trending_keywords_tie_break :
  let p1 := {| entry_id := "1"; title := "Quantum Gravity";
               summary := "quantum fields and gravity waves";
               authors := []; published := 0; categories := []; pdf_url := None |} in
  let p2 := {| entry_id := "2"; title := "Gravity again";
               summary := "waves waves fields quantum";
               authors := []; published := 0; categories := []; pdf_url := None |} in
  let st := set_all_past_papers [p1; p2] paper_manager in
  keyword_counts [p1; p2] =
    [("quantum", 3); ("gravity", 3); ("fields", 2); ("waves", 3); ("again", 1)] ∧
  trending_keywords (state_of (calculate_trending_keywords st)) =
    ["quantum"; "gravity"; "waves"; "fields"; "again"].
Proof. split; reflexivity. Qed.

(** C6: the trend analysis lower-cases each record's title joined to
    its abstract by one space, splits the result on whitespace and counts,
    over the whole historical corpus, the tokens longer than 4 characters:
    the dictionary it sorts holds exactly those tokens, each with its
    frequency. It keeps at most 50 keywords, each such a token, ordered by
    descending frequency with ties going to the token met first in the
    scan; a token left out ranks after every keyword kept, which happens
    only when 50 are kept. The lower-casing and the splitting are Python's,
    on any text, and lengths are counted in characters. *)
Theorem trending_keywords_top_50 {py : PyStr} (st : PaperManager) :
  let text := λ p, str_lower (title p +:+ " " +:+ summary p) in
  let tokens :=
    flat_map (λ p, List.filter (λ word, 4 <? Str.len word) (str_split (text p)))
      (all_past_papers st) in
  let counts := keyword_counts (all_past_papers st) in
  let keywords := trending_keywords (state_of (calculate_trending_keywords st)) in
  length keywords ≤ 50 ∧
  (∀ w, w ∈ dict_keys counts ↔ w ∈ tokens) ∧
  Forall (λ kv, kv.2 = frequency kv.1 tokens) counts ∧
  (∀ w, w ∈ keywords →
     4 < Str.len w ∧ ∃ p, p ∈ all_past_papers st ∧ w ∈ str_split (text p)) ∧
  (∀ i j a b, keywords !! i = Some a → keywords !! j = Some b → i < j →
     ranks_before tokens a b) ∧
  (∀ w, w ∈ tokens → w ∉ keywords →
     length keywords = 50 ∧ ∀ k, k ∈ keywords → ranks_before tokens k w).
Proof.
  cbv zeta.
  change (flat_map _ (all_past_papers st)) with (keyword_tokens (all_past_papers st)).
  change (trending_keywords (state_of (calculate_trending_keywords st)))
    with (map fst (take 50 (sorted_keywords (keyword_counts (all_past_papers st))))).
  rewrite keyword_counts_tokens.
  set (tokens := keyword_tokens (all_past_papers st)).
  destruct (sorted_keywords_ranked tokens) as [Hmem Hrank]. cbv zeta in Hmem, Hrank.
  change (map fst (take 50 (sorted_keywords (count_scan tokens))))
    with (fst <$> take 50 (sorted_keywords (count_scan tokens))).
  rewrite fmap_take.
  change (fst <$> sorted_keywords (count_scan tokens))
    with (map fst (sorted_keywords (count_scan tokens))).
  set (names := map fst (sorted_keywords (count_scan tokens))) in *.
  split; [rewrite length_take; lia |].
  split; [apply counted_keys, count_scan_spec |].
  split; [apply count_scan_frequencies |].
  split; [| split].
  - intros w Hw. apply elem_of_take in Hw as (i & Hi & _).
    apply list_elem_of_lookup_2, Hmem in Hi.
    apply keyword_tokens_elem in Hi. exact Hi.
  - intros i j a b Hi Hj Hlt.
    apply lookup_take_Some in Hi as [Hi _]. apply lookup_take_Some in Hj as [Hj _].
    apply (Hrank i j); assumption.
  - intros w Hw Hout. apply Hmem in Hw.
    apply list_elem_of_lookup_1 in Hw as [j Hj].
    assert (Hfar : 50 ≤ j).
    { destruct (decide (j < 50)) as [Hnear | Hfar]; [| lia].
      destruct Hout. apply elem_of_take. exists j. split; assumption. }
    pose proof (lookup_lt_Some _ _ _ Hj) as Hlen.
    split; [rewrite length_take; lia |].
    intros k Hk. apply elem_of_take in Hk as (i & Hi & Hnear).
    apply (Hrank i j); [assumption | assumption | lia].
Qed.

(** * Further properties of the code *)

(** ** What a sort does to a list *)

Section SortOrder.
Context {K A : Type} (ltb : K → K → bool) (before : relation (K * A)).
Context (good : K → Prop).
Hypothesis ltb_asym : ∀ x y, good x → good y → ltb x y = true → ltb y x = false.
Hypothesis ltb_negtrans :
  ∀ x y z, good x → good y → good z →
           ltb x y = false → ltb y z = false → ltb x z = false.

Lemma insert_desc_stable (x : K * A) (l : list (K * A)) :
  good x.1 → Forall (λ e, good e.1) l →
  StronglySorted (stable_desc ltb before) l →
  Forall (before x) l →
  StronglySorted (stable_desc ltb before) (insert_desc ltb x l).
Proof.
  intros Hgx. induction l as [|y l IH]; simpl; intros Hgood Hsorted Hbefore.
  - repeat constructor.
  - apply Forall_cons in Hgood as [Hgy Hgood].
    apply StronglySorted_cons in Hsorted as [Hy Hsorted].
    apply Forall_cons in Hbefore as [Hxy Hbefore].
    destruct (ltb x.1 y.1) eqn:Hlt.
    + apply StronglySorted_cons. split; [| apply IH; assumption].
      rewrite insert_desc_perm. apply Forall_cons. split; [| exact Hy].
      split; [apply ltb_asym; assumption | congruence].
    + apply StronglySorted_cons. split.
      * apply Forall_cons. split; [split; [exact Hlt | intros _; exact Hxy] |].
        rewrite Forall_forall in Hy, Hbefore, Hgood |- *. intros z Hz.
        destruct (Hy z Hz) as [Hyz _]. split.
        -- apply (ltb_negtrans _ y.1); auto.
        -- intros _. apply Hbefore, Hz.
      * apply StronglySorted_cons. split; assumption.
Qed.

Lemma sort_desc_stable (l : list (K * A)) :
  Forall (λ e, good e.1) l →
  StronglySorted before l →
  StronglySorted (stable_desc ltb before) (sort_desc ltb l).
Proof.
  induction l as [|x l IH]; simpl; intros Hgood Hsorted; [constructor |].
  apply Forall_cons in Hgood as [Hgx Hgood].
  apply StronglySorted_cons in Hsorted as [Hx Hsorted].
  apply insert_desc_stable; [exact Hgx | | apply IH; assumption |].
  - rewrite sort_desc_perm. exact Hgood.
  - rewrite sort_desc_perm. exact Hx.
Qed.

End SortOrder.

Lemma occurs_before_suffix {A} (pre l : list A) :
  StronglySorted (occurs_before (pre ++ l)) l.
Proof.
  revert pre. induction l as [|x l IH]; intros pre; [constructor |].
  apply StronglySorted_cons. split.
  - apply Forall_lookup. intros j y Hj.
    exists (length pre), (length pre + S j). split; [lia |]. split.
    + rewrite lookup_app_r by lia. rewrite Nat.sub_diag. reflexivity.
    + rewrite lookup_app_r by lia.
      replace (length pre + S j - length pre) with (S j) by lia. exact Hj.
  - rewrite (cons_middle x pre l), app_assoc. apply IH.
Qed.

Lemma occurs_before_sorted {A} (l : list A) : StronglySorted (occurs_before l) l.
Proof. apply (occurs_before_suffix [] l). Qed.

Lemma sorted_reverse_perm {K A} (ltb : K → K → bool) (key : nat → A → K) (l : list A) :
  sorted_reverse ltb key l ≡ₚ l.
Proof.
  unfold sorted_reverse. rewrite sort_desc_perm.
  revert key. induction l as [|x l IH]; intros key; simpl; [reflexivity |].
  f_equiv. exact (IH (key ∘ S)).
Qed.

(** With a key that does not depend on the moment it is computed, the
    output of [sorted(..., reverse=True)] never shows a larger key after a
    smaller one, and two elements whose keys tie stand as in the input. *)
Lemma sorted_reverse_stable {K A} (ltb : K → K → bool) (good : K → Prop)
    (key : A → K) (l : list A) (i j : nat) (a b : A) :
  (∀ x y, good x → good y → ltb x y = true → ltb y x = false) →
  (∀ x y z, good x → good y → good z →
            ltb x y = false → ltb y z = false → ltb x z = false) →
  (∀ x, good (key x)) →
  sorted_reverse ltb (λ _, key) l !! i = Some a →
  sorted_reverse ltb (λ _, key) l !! j = Some b →
  i < j →
  ltb (key a) (key b) = false ∧
  (ltb (key b) (key a) = false → occurs_before l a b).
Proof.
  intros Hasym Hnegtrans Hgood Hi Hj Hlt.
  unfold sorted_reverse in Hi, Hj.
  change (imap (λ (_ : nat) (x : A), (key x, x)) l)
    with (imap (const (λ x : A, (key x, x))) l) in Hi, Hj.
  rewrite imap_const in Hi, Hj.
  set (l0 := (λ x : A, (key x, x)) <$> l) in *.
  assert (Hsorted : StronglySorted (stable_desc ltb (occurs_before l0))
                      (sort_desc ltb l0)).
  { apply (sort_desc_stable ltb _ good Hasym Hnegtrans).
    - apply Forall_fmap, Forall_forall. intros x _. apply Hgood.
    - apply occurs_before_sorted. }
  assert (Hshape : ∀ e, e ∈ sort_desc ltb l0 → e.1 = key e.2).
  { intros e He. rewrite sort_desc_perm in He.
    apply list_elem_of_fmap in He as (x & -> & _). reflexivity. }
  change (map snd (sort_desc ltb l0)) with (snd <$> sort_desc ltb l0) in Hi, Hj.
  rewrite list_lookup_fmap in Hi, Hj.
  destruct (sort_desc ltb l0 !! i) as [ea|] eqn:Hea; [| discriminate].
  destruct (sort_desc ltb l0 !! j) as [eb|] eqn:Heb; [| discriminate].
  simpl in Hi, Hj. injection Hi as <-. injection Hj as <-.
  destruct (StronglySorted_lookup _ _ _ _ _ _ Hsorted Hea Heb Hlt) as [Hge Htie].
  rewrite (Hshape ea (list_elem_of_lookup_2 _ _ _ Hea)) in Hge, Htie.
  rewrite (Hshape eb (list_elem_of_lookup_2 _ _ _ Heb)) in Hge, Htie.
  split; [exact Hge |]. intros Hle.
  destruct (Htie Hle) as (i' & j' & Hij & Hi' & Hj').
  exists i', j'. split; [exact Hij |].
  unfold l0 in Hi', Hj'. rewrite list_lookup_fmap in Hi', Hj'.
  destruct (l !! i') as [x|]; [| discriminate].
  destruct (l !! j') as [y|]; [| discriminate].
  simpl in Hi', Hj'. injection Hi' as <-. injection Hj' as <-.
  split; reflexivity.
Qed.

(** ** [sort_papers] *)

Lemma sorted_view_perm {py : PyStr} (clock : nat → Z) (st : PaperManager) (raw : list Paper) :
  sorted_view clock st raw ≡ₚ
  (if String.eqb (sort_method st) "new" then new_papers st else raw).
Proof.
  unfold sorted_view.
  destruct (String.eqb_spec (sort_method st) "hot") as [Hhot | _].
  - rewrite Hhot. apply sorted_reverse_perm.
  - destruct (String.eqb (sort_method st) "new"); [apply sorted_reverse_perm |].
    destruct (String.eqb (sort_method st) "rising"); apply sorted_reverse_perm.
Qed.

(** X1: when [sort_papers] returns, the only attribute it has changed is
    [papers], and [papers] is a rearrangement of the corpus of the mode:
    [new_papers] in mode "new", [raw_papers] otherwise. No paper is lost,
    added or repeated. *)
Theorem sort_papers_reorders {py : PyStr} (clock : nat → Z) (st st' : PaperManager) :
  sort_papers clock st = Return tt st' →
  st' = set_papers (papers st') st ∧
  papers st' ≡ₚ (if String.eqb (sort_method st) "new" then new_papers st
                 else default [] (raw_papers st)).
Proof.
  intros Hsort.
  assert (Hsplit : ∀ ps source, ps ≡ₚ source → st' = set_papers ps st →
            st' = set_papers (papers st') st ∧ papers st' ≡ₚ source).
  { intros ps source Hperm ->. split; [reflexivity | exact Hperm]. }
  destruct (String.eqb_spec (sort_method st) "new") as [Hnew | Hother].
  - rewrite (sort_papers_new clock st Hnew) in Hsort. injection Hsort as <-.
    split; [reflexivity | apply sorted_reverse_perm].
  - destruct (raw_papers st) as [raw|] eqn:Hraw.
    + rewrite (sort_papers_raw clock st raw Hraw) in Hsort. injection Hsort as <-.
      split; [reflexivity |]. simpl. unfold sorted_view.
      apply String.eqb_neq in Hother. rewrite Hother.
      destruct (String.eqb (sort_method st) "hot"); [apply sorted_reverse_perm |].
      destruct (String.eqb (sort_method st) "rising"); apply sorted_reverse_perm.
    + rewrite (sort_papers_unset clock st Hraw Hother) in Hsort. discriminate.
Qed.

(** The sort of two fetched papers in the default mode. *)
Lemma sort_papers_reorders_witness :
  let st := set_raw_papers (Some [sample_paper 0; sample_paper 1]) paper_manager in
  let st' := state_of (sort_papers midnight st) in
  st' = set_papers (papers st') st ∧
  papers st' ≡ₚ (if String.eqb (sort_method st) "new" then new_papers st
                 else default [] (raw_papers st)).
Proof.
  intros st st'. apply (sort_papers_reorders midnight st st'). reflexivity.
Defined.

(** X2: the "new" order shows no paper after one published earlier, and
    papers published at the same moment stand as in the corpus. *)
Theorem sort_by_published_newest_first (l : list Paper) (i j : nat) (a b : Paper) :
  sort_by_published l !! i = Some a →
  sort_by_published l !! j = Some b →
  i < j →
  (published b <= published a)%Z ∧
  (published a = published b → occurs_before l a b).
Proof.
  intros Hi Hj Hlt.
  destruct (sorted_reverse_stable Z.ltb (λ _, True) published l i j a b)
    as [Hge Htie]; try assumption; try (intros; exact I).
  - intros x y _ _ Hxy. apply Z.ltb_lt in Hxy. apply Z.ltb_ge. lia.
  - intros x y z _ _ _ Hxy Hyz. apply Z.ltb_ge in Hxy, Hyz. apply Z.ltb_ge. lia.
  - apply Z.ltb_ge in Hge. split; [exact Hge |].
    intros Heq. apply Htie, Z.ltb_ge. lia.
Qed.

(** Two papers, the later one fetched second. *)
Lemma sort_by_published_newest_first_witness :
  let l := [sample_paper 0; sample_paper 1] in
  (published (sample_paper 0) <= published (sample_paper 1))%Z ∧
  (published (sample_paper 1) = published (sample_paper 0) →
     occurs_before l (sample_paper 1) (sample_paper 0)).
Proof.
  intros l.
  apply (sort_by_published_newest_first l 0 1 (sample_paper 1) (sample_paper 0));
    [reflexivity | reflexivity | lia].
Defined.

(** ** More on corpus builds *)

Lemma dict_set_fresh {V} (k : string) (v : V) (d : list (string * V)) :
  k ∉ dict_keys d → dict_set k v d = d ++ [(k, v)].
Proof.
  induction d as [|[k' v'] d IH]; simpl; intros Hfresh; [reflexivity |].
  apply not_elem_of_cons in Hfresh as [Hne Hfresh].
  destruct (String.eqb_spec k' k) as [-> | _]; [contradiction |].
  rewrite IH by exact Hfresh. reflexivity.
Qed.

Lemma dict_set_length {V} (k : string) (v : V) (d : list (string * V)) :
  length d ≤ length (dict_set k v d) ≤ S (length d) ∧ 1 ≤ length (dict_set k v d).
Proof.
  induction d as [|[k' v'] d IH]; simpl; [lia |].
  destruct (String.eqb k' k); simpl; lia.
Qed.

Lemma stored_fresh (l : list Paper) (d : list (string * Paper)) :
  NoDup (dict_keys d ++ map entry_id l) →
  fold_left (λ d p, dict_set (entry_id p) p d) l d
  = d ++ map (λ p, (entry_id p, p)) l.
Proof.
  revert d. induction l as [|q l IH]; intros d Hnd; simpl.
  - rewrite app_nil_r. reflexivity.
  - assert (Hfresh : entry_id q ∉ dict_keys d).
    { apply NoDup_app in Hnd as (_ & Hdisj & _). intros Hin.
      apply (Hdisj _ Hin). apply list_elem_of_here. }
    rewrite dict_set_fresh by exact Hfresh. rewrite IH.
    + rewrite <- app_assoc. reflexivity.
    + unfold dict_keys in *. rewrite map_app. simpl.
      rewrite <- app_assoc. exact Hnd.
Qed.

Lemma stored_length (l : list Paper) (d : list (string * Paper)) :
  length d ≤ length (fold_left (λ d p, dict_set (entry_id p) p d) l d)
           ≤ length d + length l.
Proof.
  revert d. induction l as [|q l IH]; intros d; simpl; [lia |].
  pose proof (IH (dict_set (entry_id q) q d)) as Hrec.
  pose proof (dict_set_length (entry_id q) q d) as Hset. lia.
Qed.

Lemma insertions_nil (up : Upstream) :
  insertions up = [] ↔ ∀ category, category ∈ CATEGORIES → yielded (up category) = [].
Proof.
  unfold insertions. generalize CATEGORIES as cats.
  induction cats as [|c cats IH]; simpl.
  - split; [intros _ c Hc; apply elem_of_nil in Hc; contradiction | reflexivity].
  - split.
    + intros Happ. apply app_eq_nil in Happ as [Hc Hrest].
      intros c' Hc'. apply elem_of_cons in Hc' as [-> | Hc']; [exact Hc |].
      apply IH; assumption.
    + intros Hall. rewrite (Hall c) by apply list_elem_of_here. simpl.
      apply IH. intros c' Hc'. apply Hall, list_elem_of_further, Hc'.
Qed.

Lemma insertions_length (up : Upstream) (n : nat) :
  (∀ category, category ∈ CATEGORIES → length (yielded (up category)) ≤ n) →
  length (insertions up) ≤ length CATEGORIES * n.
Proof.
  unfold insertions. generalize CATEGORIES as cats.
  induction cats as [|c cats IH]; simpl; intros Hall; [lia |].
  rewrite length_app.
  pose proof (Hall c (list_elem_of_here _ _)) as Hc.
  assert (Hrest : length (flat_map (λ category, yielded (up category)) cats)
                  ≤ length cats * n).
  { apply IH. intros c' Hc'. apply Hall, list_elem_of_further, Hc'. }
  lia.
Qed.

(** X3: when the partition queries of a build yield no identifier twice,
    the corpus is all the yielded papers in the order they were yielded,
    partition after partition. *)
Theorem build_corpus_distinct (up : Upstream) :
  NoDup (map entry_id (insertions up)) → build_corpus up = insertions up.
Proof.
  intros Hnd. rewrite build_corpus_fold, stored_fresh by exact Hnd.
  simpl. unfold dict_values. rewrite map_map. simpl. apply map_id.
Qed.

(** Two partitions answering with different papers. *)
Lemma build_corpus_distinct_witness :
  let up : Upstream :=
    λ category,
      if String.eqb category "physics"
      then {| yielded := [sample_paper 0; sample_paper 1]; raised := false |}
      else if String.eqb category "cs"
      then {| yielded := [sample_paper 2]; raised := true |}
      else {| yielded := []; raised := false |} in
  build_corpus up = insertions up.
Proof.
  intros up. apply (build_corpus_distinct up).
  apply (bool_decide_unpack _). vm_compute. exact I.
Defined.

(** X4: a build ends with an empty corpus exactly when none of the 8
    partition queries yields a paper; a query that raises after yielding
    papers still contributes them. *)
Theorem build_corpus_empty_iff (up : Upstream) :
  build_corpus up = [] ↔
  ∀ category, category ∈ CATEGORIES → yielded (up category) = [].
Proof.
  rewrite <- insertions_nil, build_corpus_fold. split.
  - intros Hempty. destruct (insertions up) as [|q l]; [reflexivity |].
    simpl in Hempty. apply (f_equal length) in Hempty.
    unfold dict_values in Hempty. rewrite length_map in Hempty.
    pose proof (stored_length l (dict_set (entry_id q) q [])) as Hlen.
    simpl in Hempty, Hlen. lia.
  - intros ->. reflexivity.
Qed.

(** X5: if every partition query honours [max_results=100], a corpus
    holds at most 800 papers, never more than were yielded, and a view of
    it has at most 27 pages of 30 papers. *)
Theorem build_corpus_size (up : Upstream) :
  (∀ category, category ∈ CATEGORIES → length (yielded (up category)) ≤ 100) →
  length (build_corpus up) ≤ length (insertions up) ∧
  length (build_corpus up) ≤ 800 ∧
  page_count (length (build_corpus up)) 30 ≤ 27.
Proof.
  intros Hmax. pose proof (insertions_length up 100 Hmax) as Hyielded.
  assert (Hlen : length (build_corpus up) ≤ length (insertions up)).
  { rewrite build_corpus_fold. unfold dict_values. rewrite length_map.
    pose proof (stored_length (insertions up) []) as Hs. simpl in Hs. lia. }
  change (length CATEGORIES) with 8 in Hyielded.
  split; [exact Hlen |]. split; [lia |].
  unfold page_count.
  assert (Hdiv : (length (build_corpus up) + 30 - 1) / 30 < 28).
  { apply Nat.Div0.div_lt_upper_bound. lia. }
  lia.
Qed.

(** The source answering one query with one paper. *)
Lemma build_corpus_size_witness :
  let up := only_physics [sample_paper 0] in
  length (build_corpus up) ≤ length (insertions up) ∧
  length (build_corpus up) ≤ 800 ∧
  page_count (length (build_corpus up)) 30 ≤ 27.
Proof.
  intros up. apply (build_corpus_size up).
  intros category _. unfold up, only_physics.
  destruct (String.eqb category "physics"); simpl; lia.
Defined.

(** ** More on the refresh *)

(** X6: once a refresh has succeeded at a time [t_done] other than 0,
    every call made at a time [t] with [t - t_done] below the time-to-live
    answers [True] from the cache and leaves the manager as it is, whatever
    the upstream source would answer. *)
Theorem refresh_then_cached {py : PyStr} (t_check t_done t t' : float) (past new past' new' : Upstream)
    (clock clock' : nat → Z) (st st' : PaperManager) :
  using_cached_data (last_fetch_time st) t_check (cache_duration st) = false →
  fetch_papers_async t_check t_done past new clock st = Return true st' →
  (t_done =? 0)%float = false →
  (t - t_done <? cache_duration st)%float = true →
  fetch_papers_async t t' past' new' clock' st' = Return true st'.
Proof.
  intros Hstale Hfetch Hnz Hfresh.
  rewrite fetch_papers_async_unfold, Hstale in Hfetch.
  destruct (is_empty _ || is_empty _); [discriminate |].
  cbv zeta in Hfetch. destruct (papers_per_page st =? 0); [discriminate |].
  injection Hfetch as <-.
  rewrite fetch_papers_async_unfold.
  change (last_fetch_time (refreshed _ _ _)) with (Some t_done).
  change (cache_duration (refreshed _ _ _)) with (cache_duration st).
  replace (using_cached_data (Some t_done) t (cache_duration st)) with true;
    [reflexivity |].
  symmetry. apply using_cached_data_true. exists t_done. auto.
Qed.

(** A refresh at time 1010 and a second call at time 2000. *)
Lemma refresh_then_cached_witness :
  let up := only_physics [sample_paper 0] in
  let none : Upstream := λ _, {| yielded := []; raised := true |} in
  let st' := state_of (fetch_papers_async 1000 1010 up up midnight paper_manager) in
  fetch_papers_async 2000 2010 none none midnight st' = Return true st'.
Proof.
  intros up none st'.
  apply (refresh_then_cached 1000 1010 2000 2010 up up none none
           midnight midnight paper_manager st').
  - reflexivity.
  - vm_compute. reflexivity.
  - reflexivity.
  - reflexivity.
Defined.

(** X7: a refresh that answers [False] has replaced the two corpora by
    what was fetched, one of them empty, and has touched nothing else: the
    sorted view, the page numbers, the sort mode, the trending keywords,
    the author index, [raw_papers] and the time of the last fetch are as
    before, so the next call fetches again. *)
Theorem failed_refresh_keeps_view {py : PyStr} (t_check t_done : float) (past new : Upstream)
    (clock : nat → Z) (st st' : PaperManager) :
  fetch_papers_async t_check t_done past new clock st = Return false st' →
  (build_corpus past = [] ∨ build_corpus new = []) ∧
  all_past_papers st' = build_corpus past ∧
  new_papers st' = build_corpus new ∧
  papers st' = papers st ∧
  current_page st' = current_page st ∧
  total_pages st' = total_pages st ∧
  sort_method st' = sort_method st ∧
  trending_keywords st' = trending_keywords st ∧
  author_publication_counts st' = author_publication_counts st ∧
  raw_papers st' = raw_papers st ∧
  last_fetch_time st' = last_fetch_time st ∧
  needsRefresh t_check (last_fetch_time st') (cache_duration st') = true.
Proof.
  rewrite fetch_papers_async_unfold.
  destruct (using_cached_data _ _ _) eqn:Hgate; [discriminate |].
  destruct (is_empty (build_corpus past) || is_empty (build_corpus new)) eqn:Hempty.
  - intros [= <-]. split.
    + apply orb_true_iff in Hempty as [Hp | Hn].
      * left. destruct (build_corpus past); [reflexivity | discriminate].
      * right. destruct (build_corpus new); [reflexivity | discriminate].
    + repeat split. unfold needsRefresh. simpl. rewrite Hgate. reflexivity.
  - cbv zeta. destruct (papers_per_page st =? 0); discriminate.
Qed.

(** The source is down for the latest build. *)
Lemma failed_refresh_keeps_view_witness :
  let up := only_physics [sample_paper 0] in
  let none : Upstream := λ _, {| yielded := []; raised := true |} in
  let st := paper_manager in
  let st' := state_of (fetch_papers_async 1000 1010 up none midnight st) in
  (build_corpus up = [] ∨ build_corpus none = []) ∧
  all_past_papers st' = build_corpus up ∧
  new_papers st' = build_corpus none ∧
  papers st' = papers st ∧
  current_page st' = current_page st ∧
  total_pages st' = total_pages st ∧
  sort_method st' = sort_method st ∧
  trending_keywords st' = trending_keywords st ∧
  author_publication_counts st' = author_publication_counts st ∧
  raw_papers st' = raw_papers st ∧
  last_fetch_time st' = last_fetch_time st ∧
  needsRefresh 1000 (last_fetch_time st') (cache_duration st') = true.
Proof.
  intros up none st st'.
  apply (failed_refresh_keeps_view 1000 1010 up none midnight st st').
  vm_compute. reflexivity.
Defined.

(** X8: a refresh that passes the gate and answers [True] has stored the
    two fetched corpora, made the historical one [raw_papers], sorted the
    corpus of the current mode into the view (the latest corpus in mode
    "new", the historical one otherwise), computed [total_pages] from that
    view, gone back to page 1 and recorded the time [t_done]; the sort mode
    is as before. *)
Theorem refresh_outcome {py : PyStr} (t_check t_done : float) (past new : Upstream)
    (clock : nat → Z) (st st' : PaperManager) :
  using_cached_data (last_fetch_time st) t_check (cache_duration st) = false →
  fetch_papers_async t_check t_done past new clock st = Return true st' →
  all_past_papers st' = build_corpus past ∧
  new_papers st' = build_corpus new ∧
  raw_papers st' = Some (build_corpus past) ∧
  papers st' ≡ₚ (if String.eqb (sort_method st) "new" then build_corpus new
                 else build_corpus past) ∧
  total_pages st' = page_count (length (papers st')) (papers_per_page st) ∧
  current_page st' = 1 ∧
  last_fetch_time st' = Some t_done ∧
  sort_method st' = sort_method st.
Proof.
  intros Hstale. rewrite fetch_papers_async_unfold, Hstale.
  destruct (is_empty _ || is_empty _); [discriminate |].
  cbv zeta. destruct (papers_per_page st =? 0); [discriminate |].
  intros [= <-]. repeat split.
  apply (sorted_view_perm clock (analysed (fetched past new st)) (build_corpus past)).
Qed.

(** The first refresh of the manager, one paper in each corpus. *)
Lemma refresh_outcome_witness :
  let up := only_physics [sample_paper 0] in
  let st := paper_manager in
  let st' := state_of (fetch_papers_async 1000 1010 up up midnight st) in
  all_past_papers st' = build_corpus up ∧
  new_papers st' = build_corpus up ∧
  raw_papers st' = Some (build_corpus up) ∧
  papers st' ≡ₚ (if String.eqb (sort_method st) "new" then build_corpus up
                 else build_corpus up) ∧
  total_pages st' = page_count (length (papers st')) (papers_per_page st) ∧
  current_page st' = 1 ∧
  last_fetch_time st' = Some 1010%float ∧
  sort_method st' = sort_method st.
Proof.
  intros up st st'.
  apply (refresh_outcome 1000 1010 up up midnight st st');
    [reflexivity | vm_compute; reflexivity].
Defined.

(** X9: from a reachable state [initialize_app] never raises: it yields
    the loading message and then either the failure message, when one of
    the two builds ended empty, or the page of the state it leaves. *)
Theorem initialize_app_returns {py : PyStr} (t_check t_done : float) (past new : Upstream)
    (clock : nat → Z) (st : PaperManager) :
  reachable st →
  ∃ st',
    (initialize_app t_check t_done past new clock st
       = Return [Loading; FailedFetch] st' ∧
     (build_corpus past = [] ∨ build_corpus new = [])) ∨
    initialize_app t_check t_done past new clock st
      = Return [Loading; render_papers st'] st'.
Proof.
  intros Hreach. destruct (reachable_page_invariant st Hreach) as (Hpp & _).
  unfold initialize_app, bind. rewrite fetch_papers_async_unfold.
  destruct (using_cached_data _ _ _); [eexists; right; reflexivity |].
  destruct (is_empty (build_corpus past) || is_empty (build_corpus new)) eqn:Hempty.
  - eexists. left. split; [reflexivity |].
    apply orb_true_iff in Hempty as [Hp | Hn].
    + left. destruct (build_corpus past); [reflexivity | discriminate].
    + right. destruct (build_corpus new); [reflexivity | discriminate].
  - cbv zeta. rewrite Hpp. simpl. eexists. right. reflexivity.
Qed.

(** The handler on the manager as the process starts. *)
Lemma initialize_app_returns_witness :
  let up := only_physics [sample_paper 0] in
  ∃ st',
    (initialize_app 1000 1010 up up midnight paper_manager
       = Return [Loading; FailedFetch] st' ∧
     (build_corpus up = [] ∨ build_corpus up = [])) ∨
    initialize_app 1000 1010 up up midnight paper_manager
      = Return [Loading; render_papers st'] st'.
Proof.
  intros up.
  apply (initialize_app_returns 1000 1010 up up midnight paper_manager).
  apply reach_start.
Defined.

(** ** More on pages *)

(** X10: in every state the process-wide manager can reach, the page
    size is 30, the time-to-live is 3600 seconds, and the current page
    lies between 1 and the stored [total_pages]. *)
Theorem reachable_page_numbers {py : PyStr} (st : PaperManager) :
  reachable st →
  1 ≤ current_page st ≤ total_pages st ∧
  papers_per_page st = 30 ∧
  cache_duration st = 3600%float.
Proof.
  intros Hreach.
  destruct (reachable_page_invariant st Hreach) as (Hpp & Hpage & _ & Httl).
  split; [exact Hpage |]. split; assumption.
Qed.

(** The state after a refresh of 31 papers and a turn of the page. *)
Lemma reachable_page_numbers_witness :
  let up := only_physics (map sample_paper (seq 0 31)) in
  let st1 := state_of (initialize_app 1000 1010 up up midnight paper_manager) in
  let st := state_of (next_page st1) in
  1 ≤ current_page st ≤ total_pages st ∧
  papers_per_page st = 30 ∧
  cache_duration st = 3600%float.
Proof.
  intros up st1 st. apply (reachable_page_numbers st).
  apply reach_next, reach_initialize, reach_start.
Defined.

(** X11: between the bounds [next_page] and [prev_page] undo each other:
    turning forward and then back, or back and then forward, leaves the
    manager exactly as it was. *)
Theorem next_prev_round_trip (st : PaperManager) :
  1 ≤ current_page st ≤ total_pages st →
  (current_page st < total_pages st →
     state_of (prev_page (state_of (next_page st))) = st) ∧
  (1 < current_page st →
     state_of (next_page (state_of (prev_page st))) = st).
Proof.
  intros Hbounds. destruct st as [pp cp ps tp sm tk ac ap np lf cd rp].
  simpl in Hbounds. unfold next_page, prev_page. split; intros Hroom; simpl in *.
  - destruct (Nat.ltb_spec cp tp) as [_ | Hge]; [| lia]. simpl.
    destruct (Nat.ltb_spec 1 (cp + 1)) as [_ | Hle]; [| lia]. simpl.
    unfold set_current_page. simpl. f_equal. lia.
  - destruct (Nat.ltb_spec 1 cp) as [_ | Hle]; [| lia]. simpl.
    destruct (Nat.ltb_spec (cp - 1) tp) as [_ | Hge]; [| lia]. simpl.
    unfold set_current_page. simpl. f_equal. lia.
Qed.

(** Page 1 of 2. *)
Lemma next_prev_round_trip_witness :
  let st := set_total_pages 2 paper_manager in
  (current_page st < total_pages st →
     state_of (prev_page (state_of (next_page st))) = st) ∧
  (1 < current_page st →
     state_of (next_page (state_of (prev_page st))) = st).
Proof.
  intros st. apply (next_prev_round_trip st). simpl. lia.
Defined.

Lemma page_rows_lookup (per_page start : nat) (l : list Paper) (i : nat)
    (rank : nat) (p : Paper) :
  imap (λ idx paper, (idx + start + 1, paper)) (take per_page (drop start l)) !! i
    = Some (rank, p) ↔
  i < per_page ∧ l !! (start + i) = Some p ∧ rank = start + i + 1.
Proof.
  rewrite list_lookup_imap, lookup_take, lookup_drop.
  destruct (decide (i < per_page)) as [Hlt | Hge].
  - destruct (l !! (start + i)) as [q|]; simpl.
    + split.
      * intros [= <- <-]. repeat split; [exact Hlt | lia].
      * intros (_ & [= ->] & ->). f_equal. f_equal. lia.
    + split; [discriminate | intros (_ & Hq & _); discriminate].
  - simpl. split; [discriminate | intros (Hlt & _); contradiction].
Qed.


(** X13: with a page size that is not 0, the paper at index [k] of the
    view is shown on page [k / size + 1], in row [k mod size], with rank
    [k + 1]. *)
Theorem paper_on_its_page (st : PaperManager) (k : nat) (p : Paper) :
  papers_per_page st ≠ 0 →
  papers st !! k = Some p →
  ∃ rows,
    render_papers (set_current_page (k / papers_per_page st + 1) st) = Table rows ∧
    rows !! (k mod papers_per_page st) = Some (k + 1, p).
Proof.
  intros Hpp Hk. unfold render_papers. cbv zeta.
  change (papers_per_page (set_current_page _ st)) with (papers_per_page st).
  change (papers (set_current_page _ st)) with (papers st).
  change (current_page (set_current_page ?n st)) with n.
  set (pp := papers_per_page st) in *.
  replace (k / pp + 1 - 1) with (k / pp) by lia.
  set (start := k / pp * pp).
  assert (Hsplit : start + k mod pp = k).
  { unfold start. pose proof (Nat.div_mod_eq k pp). lia. }
  assert (Hmod : k mod pp < pp) by (apply Nat.mod_upper_bound; exact Hpp).
  assert (Hrow : imap (λ idx paper, (idx + start + 1, paper))
                   (take pp (drop start (papers st))) !! (k mod pp)
                 = Some (k + 1, p)).
  { apply page_rows_lookup. rewrite Hsplit.
    split; [exact Hmod |]. split; [exact Hk | lia]. }
  destruct (take pp (drop start (papers st))) as [|q cur] eqn:Hcur.
  - rewrite list_lookup_imap in Hrow. rewrite lookup_nil in Hrow. discriminate.
  - eexists. split; [reflexivity | exact Hrow].
Qed.

(** The 31st of 31 papers is the first row of page 2. *)
Lemma paper_on_its_page_witness :
  let st := set_papers (map sample_paper (seq 0 31)) paper_manager in
  ∃ rows,
    render_papers (set_current_page (30 / papers_per_page st + 1) st) = Table rows ∧
    rows !! (30 mod papers_per_page st) = Some (30 + 1, sample_paper 30).
Proof.
  intros st. apply (paper_on_its_page st 30 (sample_paper 30)).
  - simpl. lia.
  - reflexivity.
Defined.

(** ** What stays true of the manager's attributes *)

Lemma keyword_score_le {py : PyStr} (st : PaperManager) (p : Paper) :
  keyword_score st p ≤ length (trending_keywords st).
Proof.
  unfold keyword_score.
  assert (Hgen : ∀ l n,
            fold_left (λ score keyword,
                         if Str.contains keyword (paper_text p) then score + 1 else score)
              l n ≤ n + length l).
  { induction l as [|k l IH]; intros n; simpl; [lia |].
    destruct (Str.contains k (paper_text p)).
    - pose proof (IH (n + 1)). lia.
    - pose proof (IH n). lia. }
  apply (Hgen (trending_keywords st) 0).
Qed.

Lemma ranks_before_irrefl (tokens : list string) (w : string) :
  ¬ ranks_before tokens w w.
Proof. unfold ranks_before. lia. Qed.

(** What the trend analysis assigns to [trending_keywords]. *)
Lemma top_keywords_shape {py : PyStr} (l : list Paper) :
  let keywords := map fst (take 50 (sorted_keywords (keyword_counts l))) in
  length keywords ≤ 50 ∧
  Forall (λ w, 4 < Str.len w) keywords ∧
  NoDup keywords.
Proof.
  cbv zeta. rewrite keyword_counts_tokens.
  set (tokens := keyword_tokens l).
  destruct (sorted_keywords_ranked tokens) as [Hmem Hrank]. cbv zeta in Hmem, Hrank.
  change (map fst (take 50 (sorted_keywords (count_scan tokens))))
    with (fst <$> take 50 (sorted_keywords (count_scan tokens))).
  rewrite fmap_take.
  change (fst <$> sorted_keywords (count_scan tokens))
    with (map fst (sorted_keywords (count_scan tokens))).
  set (names := map fst (sorted_keywords (count_scan tokens))) in *.
  split; [rewrite length_take; lia |]. split.
  - apply Forall_forall. intros w Hw. apply elem_of_take in Hw as (i & Hi & _).
    apply list_elem_of_lookup_2, Hmem, keyword_tokens_elem in Hi. apply Hi.
  - apply NoDup_alt. intros i j w Hi Hj.
    apply lookup_take_Some in Hi as [Hi _]. apply lookup_take_Some in Hj as [Hj _].
    destruct (Nat.lt_trichotomy i j) as [Hlt | [Heq | Hgt]]; [| exact Heq |].
    + destruct (ranks_before_irrefl tokens w). apply (Hrank i j); assumption.
    + destruct (ranks_before_irrefl tokens w). apply (Hrank j i); assumption.
Qed.

Lemma set_sort_method_attributes {py : PyStr} (method : string) (clock : nat → Z)
    (st : PaperManager) :
  let st' := state_of (set_sort_method method clock st) in
  sort_method st' ∈ known_methods ∧
  trending_keywords st' = trending_keywords st.
Proof.
  cbv zeta. rewrite set_sort_method_unfold. cbv zeta.
  set (chosen := if bool_decide (str_lower method ∈ known_methods)
                 then method else "hot").
  assert (Hknown : str_lower chosen ∈ known_methods).
  { unfold chosen.
    destruct (bool_decide_reflect (str_lower method ∈ known_methods)) as [Hin | _];
      [exact Hin |].
    rewrite (str_lower_ascii "hot") by reflexivity.
    apply (bool_decide_unpack _). vm_compute. exact I. }
  destruct (sort_papers_cases clock (set_sort_method_attr (str_lower chosen) st))
    as [[ps Hs] | Hs]; rewrite Hs; simpl; split; (exact Hknown || reflexivity).
Qed.

Lemma fetch_papers_async_attributes {py : PyStr} (t_check t_done : float) (past new : Upstream)
    (clock : nat → Z) (st : PaperManager) :
  let st' := state_of (fetch_papers_async t_check t_done past new clock st) in
  sort_method st' = sort_method st ∧
  (trending_keywords st' = trending_keywords st ∨
   trending_keywords st'
   = map fst (take 50 (sorted_keywords (keyword_counts (build_corpus past))))).
Proof.
  cbv zeta. rewrite fetch_papers_async_unfold.
  destruct (using_cached_data _ _ _); [split; [reflexivity | left; reflexivity] |].
  destruct (is_empty _ || is_empty _); [split; [reflexivity | left; reflexivity] |].
  cbv zeta. destruct (papers_per_page st =? 0); simpl;
    (split; [reflexivity | right; reflexivity]).
Qed.

Lemma reachable_attributes {py : PyStr} (st : PaperManager) :
  reachable st →
  sort_method st ∈ known_methods ∧
  length (trending_keywords st) ≤ 50 ∧
  Forall (λ w, 4 < Str.len w) (trending_keywords st) ∧
  NoDup (trending_keywords st).
Proof.
  induction 1 as [| st t_check t_done past new clock _ IH
                  | st method clock _ IH | st _ IH | st _ IH].
  - split; [apply (bool_decide_unpack _); vm_compute; exact I |].
    simpl. split; [lia |]. split; constructor.
  - rewrite state_of_initialize_app.
    destruct (fetch_papers_async_attributes t_check t_done past new clock st)
      as [Hmode [Hsame | Hnew]]; rewrite Hmode.
    + rewrite Hsame. exact IH.
    + rewrite Hnew. split; [apply IH | apply top_keywords_shape].
  - rewrite state_of_change_sort_method.
    destruct (set_sort_method_attributes (str_lower method) clock st) as [Hmode Hsame].
    rewrite Hsame. split; [exact Hmode | apply IH].
  - unfold next_page. cbv zeta.
    destruct (current_page st <? total_pages st); exact IH.
  - unfold prev_page. cbv zeta.
    destruct (1 <? current_page st); exact IH.
Qed.

(** X14: in every reachable state the stored sort method is "hot", "new"
    or "rising"; the last [else] of [sort_papers] never runs. *)
Theorem reachable_sort_method {py : PyStr} (st : PaperManager) :
  reachable st →
  sort_method st = "hot" ∨ sort_method st = "new" ∨ sort_method st = "rising".
Proof.
  intros Hreach. destruct (reachable_attributes st Hreach) as [Hmode _].
  unfold known_methods in Hmode.
  apply elem_of_cons in Hmode as [-> | Hmode]; [auto |].
  apply elem_of_cons in Hmode as [-> | Hmode]; [auto |].
  apply list_elem_of_singleton in Hmode as ->. auto.
Qed.

(** The state after a choice the page does not offer. *)
Lemma reachable_sort_method_witness :
  let st := state_of (change_sort_method "Top" midnight paper_manager) in
  sort_method st = "hot" ∨ sort_method st = "new" ∨ sort_method st = "rising".
Proof.
  intros st. apply (reachable_sort_method st).
  apply reach_change_sort, reach_start.
Defined.

(** X15: in every reachable state there are at most 50 trending
    keywords, all different and each longer than 4 characters, so the
    keyword score of any paper is at most 50. *)
Theorem reachable_trending_keywords {py : PyStr} (st : PaperManager) :
  reachable st →
  length (trending_keywords st) ≤ 50 ∧
  NoDup (trending_keywords st) ∧
  Forall (λ w, 4 < Str.len w) (trending_keywords st) ∧
  ∀ p, keyword_score st p ≤ 50.
Proof.
  intros Hreach.
  destruct (reachable_attributes st Hreach) as (_ & Hlen & Hlong & Hnd).
  split; [exact Hlen |]. split; [exact Hnd |]. split; [exact Hlong |].
  intros p. pose proof (keyword_score_le st p). lia.
Qed.

(** The state after a refresh of one paper. *)
Lemma reachable_trending_keywords_witness :
  let up := only_physics [sample_paper 0] in
  let st := state_of (initialize_app 1000 1010 up up midnight paper_manager) in
  length (trending_keywords st) ≤ 50 ∧
  NoDup (trending_keywords st) ∧
  Forall (λ w, 4 < Str.len w) (trending_keywords st) ∧
  ∀ p, keyword_score st p ≤ 50.
Proof.
  intros up st. apply (reachable_trending_keywords st).
  apply reach_initialize, reach_start.
Defined.

(** X16: in every reachable state a paper whose lower-cased title and
    abstract hold a token of at most 4 characters has a novelty of at least
    1 and a rising score above 0: short words are never trending, so they
    always count as novel. *)
Theorem short_token_is_novel {py : PyStr} (st : PaperManager) (now : Z)
    (p : Paper) (w : string) :
  reachable st →
  w ∈ str_split (str_lower (title p +:+ " " +:+ summary p)) →
  Str.len w ≤ 4 →
  1 ≤ novelty_score st p ∧ (0 < calculate_rising_score st now p)%Q.
Proof.
  intros Hreach Hw Hshort.
  destruct (reachable_attributes st Hreach) as (_ & _ & Hlong & _).
  assert (Hnov : 1 ≤ novelty_score st p).
  { unfold novelty_score. cbv zeta.
    change (str_lower (title p +:+ " " +:+ summary p)) with (paper_text p) in Hw.
    set (X := (list_to_set (str_split (paper_text p)) : gset string)
              ∖ list_to_set (trending_keywords st)).
    assert (Hin : w ∈ X).
    { unfold X. rewrite elem_of_difference, !elem_of_list_to_set.
      split; [exact Hw |]. intros Htrend.
      rewrite Forall_forall in Hlong. specialize (Hlong w Htrend). lia. }
    assert (Hne : size X ≠ 0).
    { apply size_non_empty_iff. intros Hempty. rewrite Hempty in Hin.
      exact (not_elem_of_empty w Hin). }
    lia. }
  split; [exact Hnov |].
  unfold calculate_rising_score, Qlt. simpl. lia.
Qed.

(** The sample abstract holds the word "An". *)
Lemma short_token_is_novel_witness :
  1 ≤ novelty_score paper_manager (sample_paper 0) ∧
  (0 < calculate_rising_score paper_manager day (sample_paper 0))%Q.
Proof.
  apply (short_token_is_novel paper_manager day (sample_paper 0) "an").
  - apply reach_start.
  - apply (bool_decide_unpack _). vm_compute. exact I.
  - simpl. lia.
Defined.

(** ** More on the two analyses *)

Lemma sum_counts_bump (w : string) (d : list (string * nat)) :
  sum_list (map snd (bump w d)) = S (sum_list (map snd d)).
Proof.
  unfold bump. induction d as [|[k c] d IH]; simpl; [reflexivity |].
  destruct (String.eqb_spec k w) as [-> | Hne]; simpl.
  - lia.
  - rewrite IH. lia.
Qed.

(** X17: the counts of the keyword dictionary add up to the number of
    tokens longer than 4 characters in the corpus: every such token is
    counted once, under its own word. *)
Theorem keyword_counts_total {py : PyStr} (l : list Paper) :
  sum_list (map snd (keyword_counts l)) = length (keyword_tokens l).
Proof.
  rewrite keyword_counts_tokens. generalize (keyword_tokens l) as tokens.
  induction tokens as [|w pre IH] using rev_ind; [reflexivity |].
  rewrite count_scan_snoc, sum_counts_bump, IH, length_app. simpl. lia.
Qed.

Lemma listings_elem (name : string) (l : list Paper) (p : Paper) :
  p ∈ l → count_occ string_dec (authors p) name ≤ listings name l.
Proof.
  unfold listings. induction 1 as [p l | p q l _ IH]; simpl; lia.
Qed.

Lemma sum_list_ge_length {A} (f : A → nat) (l : list A) :
  Forall (λ x, 1 ≤ f x) l → length l ≤ sum_list (map f l).
Proof.
  induction 1 as [|x l Hx _ IH]; simpl; lia.
Qed.

Lemma hot_value_pos (n d : Z) : (0 < n)%Z → (0 < hot_value (n, d))%R.
Proof.
  intros Hn. unfold hot_value. simpl. apply Rdiv_lt_0_compat.
  - apply IZR_lt. exact Hn.
  - apply Rpower_three_halves_pos.
Qed.

(** X18: after a refresh that succeeds, every paper of the historical
    corpus has an author score at least as large as its number of authors,
    each of its authors being counted at least once; so a paper of the
    corpus that lists an author has a hot score above 0. *)
Theorem refreshed_authors_are_active {py : PyStr} (t_check t_done : float) (past new : Upstream)
    (clock : nat → Z) (st st' : PaperManager) (now : Z) (p : Paper) :
  using_cached_data (last_fetch_time st) t_check (cache_duration st) = false →
  fetch_papers_async t_check t_done past new clock st = Return true st' →
  p ∈ all_past_papers st' →
  length (authors p) ≤ author_activity_score st' p ∧
  (authors p ≠ [] → (0 < calculate_score st' now p)%R).
Proof.
  intros Hstale Hfetch Hp.
  assert (Hscore : length (authors p) ≤ author_activity_score st' p).
  { unfold author_activity_score.
    apply (sum_list_ge_length
             (λ name, default 0 (author_publication_counts st' !! name))).
    apply Forall_forall. intros name Hname.
    destruct (refresh_adds_listings t_check t_done past new clock st st' name
                Hstale Hfetch) as [_ Hadd].
    unfold activity in Hadd. rewrite Hadd.
    pose proof (listings_elem name _ p Hp) as Hlist.
    assert (Hocc : 0 < count_occ string_dec (authors p) name).
    { apply count_occ_In, list_elem_of_In, Hname. }
    lia. }
  split; [exact Hscore |].
  intros Hauthors. unfold calculate_score, hot_key. apply hot_value_pos.
  destruct (authors p); [contradiction | simpl in Hscore; lia].
Qed.

(** The first refresh, one paper by one author. *)
Lemma refreshed_authors_are_active_witness :
  let up := only_physics [sample_paper 0] in
  let st' := state_of (fetch_papers_async 1000 1010 up up midnight paper_manager) in
  length (authors (sample_paper 0)) ≤ author_activity_score st' (sample_paper 0) ∧
  (authors (sample_paper 0) ≠ [] → (0 < calculate_score st' day (sample_paper 0))%R).
Proof.
  intros up st'.
  apply (refreshed_authors_are_active 1000 1010 up up midnight paper_manager st').
  - reflexivity.
  - vm_compute. reflexivity.
  - vm_compute. apply list_elem_of_here.
Defined.

(** X19: the hot score is never negative, is 0 exactly when the author
    score and the keyword score are both 0, and never exceeds what the same
    scores give at age 0, [(a + k) / 7 ** 1.5]. *)
Theorem hot_score_range {py : PyStr} (st : PaperManager) (now : Z) (p : Paper) :
  (0 <= calculate_score st now p)%R ∧
  (calculate_score st now p = 0%R ↔
     author_activity_score st p + keyword_score st p = 0) ∧
  (calculate_score st now p
     <= hot_value (Z.of_nat (author_activity_score st p + keyword_score st p), 0%Z))%R.
Proof.
  unfold calculate_score, hot_key.
  set (n := author_activity_score st p + keyword_score st p).
  assert (Hage : (0 <= time_diff_days now p)%Z) by (unfold time_diff_days; lia).
  split; [apply hot_value_nonneg; lia |]. split.
  - split.
    + intros Hzero. destruct n as [|n]; [reflexivity |].
      pose proof (hot_value_pos (Z.of_nat (S n)) (time_diff_days now p)) as Hpos.
      rewrite Hzero in Hpos. destruct (Rlt_irrefl 0%R). apply Hpos. lia.
    + intros ->. apply hot_value_zero.
  - destruct n as [|n]; [rewrite !hot_value_zero; apply Rle_refl |].
    destruct (Z.eq_dec (time_diff_days now p) 0%Z) as [-> | Hne]; [apply Rle_refl |].
    left. apply hot_value_decreasing; lia.
Qed.

(** ** Tokens and substrings *)

Lemma append_cons (c : ascii) (s t : string) :
  String c s +:+ t = String c (s +:+ t).
Proof. reflexivity. Qed.

Lemma append_nil_r (s : string) : s +:+ EmptyString = s.
Proof.
  induction s as [|c s IH]; [reflexivity |].
  rewrite append_cons, IH. reflexivity.
Qed.

Lemma append_assoc (s1 s2 s3 : string) : (s1 +:+ s2) +:+ s3 = s1 +:+ (s2 +:+ s3).
Proof.
  induction s1 as [|c s1 IH]; [reflexivity |].
  rewrite !append_cons, IH. reflexivity.
Qed.

Lemma append_length (s1 s2 : string) :
  String.length (s1 +:+ s2) = String.length s1 + String.length s2.
Proof.
  induction s1 as [|c s1 IH]; [reflexivity |].
  rewrite append_cons. cbn [String.length]. rewrite IH. reflexivity.
Qed.

Lemma prefix_append (k t : string) : String.prefix k (k +:+ t) = true.
Proof.
  induction k as [|c k IH]; [destruct t; reflexivity |].
  rewrite append_cons. cbn [String.prefix].
  destruct (ascii_dec c c) as [_ | Hne]; [exact IH | contradiction].
Qed.

Lemma contains_prefix (k t : string) :
  String.prefix k t = true → Str.contains k t = true.
Proof.
  intros Hprefix. destruct t; cbn [Str.contains]; rewrite Hprefix; reflexivity.
Qed.

Lemma contains_cons (k : string) (c : ascii) (t : string) :
  Str.contains k t = true → Str.contains k (String c t) = true.
Proof.
  intros Hfound. cbn [Str.contains]. rewrite Hfound. apply orb_true_r.
Qed.

(** A string that occurs in a text is found by [in]. *)
Lemma contains_occurrence (k pre suf : string) :
  Str.contains k (pre +:+ k +:+ suf) = true.
Proof.
  induction pre as [|c pre IH].
  - change (EmptyString +:+ k +:+ suf) with (k +:+ suf).
    apply contains_prefix, prefix_append.
  - rewrite append_cons. apply contains_cons, IH.
Qed.

Lemma elem_of_flush (w cur : string) (rest : list string) :
  w ∈ Str.flush cur rest → (w = cur ∧ cur ≠ EmptyString) ∨ w ∈ rest.
Proof.
  destruct cur as [|c cur]; simpl; [auto |].
  intros Hin. apply elem_of_cons in Hin as [-> | Hin]; [left | right; exact Hin].
  split; [reflexivity | discriminate].
Qed.

(** Every token of [split] occurs in the text it was split from. *)
Lemma split_from_occurrence (w cur s : string) :
  w ∈ Str.split_from cur s → ∃ pre suf, cur +:+ s = pre +:+ w +:+ suf.
Proof.
  revert cur. induction s as [|c s IH]; intros cur; cbn [Str.split_from].
  - intros Hin. apply elem_of_flush in Hin as [[-> _] | Hin].
    + exists EmptyString, EmptyString. reflexivity.
    + apply elem_of_nil in Hin. contradiction.
  - destruct (Str.isspace c).
    + intros Hin. apply elem_of_flush in Hin as [[-> _] | Hin].
      * exists EmptyString, (String c s). reflexivity.
      * destruct (IH _ Hin) as (pre & suf & Heq).
        change (EmptyString +:+ s) with s in Heq.
        exists (cur +:+ String c pre), suf.
        rewrite append_assoc, append_cons, <- Heq. reflexivity.
    + intros Hin. destruct (IH _ Hin) as (pre & suf & Heq).
      exists pre, suf. rewrite <- Heq, append_assoc. reflexivity.
Qed.

Lemma split_contains (w s : string) : w ∈ Str.split s → Str.contains w s = true.
Proof.
  intros Hin. apply split_from_occurrence in Hin as (pre & suf & Heq).
  change (EmptyString +:+ s) with s in Heq. rewrite Heq.
  apply contains_occurrence.
Qed.

Lemma keyword_score_found {py : PyStr} (st : PaperManager) (p : Paper) (w : string) :
  w ∈ trending_keywords st → Str.contains w (paper_text p) = true →
  1 ≤ keyword_score st p.
Proof.
  unfold keyword_score. intros Hin Hfound.
  set (step := λ (score : nat) (keyword : string),
         if Str.contains keyword (paper_text p) then score + 1 else score).
  assert (Hstep : ∀ n k, n ≤ step n k).
  { intros n k. unfold step. destruct (Str.contains k (paper_text p)); lia. }
  assert (Hhit : ∀ n, step n w = n + 1).
  { intros n. unfold step. rewrite Hfound. reflexivity. }
  clearbody step.
  assert (Hmono : ∀ l n, n ≤ fold_left step l n).
  { induction l as [|k l IH]; intros n; cbn [fold_left]; [lia |].
    pose proof (IH (step n k)) as Hrec. pose proof (Hstep n k) as Hk. lia. }
  assert (Hgen : ∀ l n, w ∈ l → n + 1 ≤ fold_left step l n).
  { induction l as [|k l IH]; intros n Hl; cbn [fold_left].
    - apply elem_of_nil in Hl. contradiction.
    - apply elem_of_cons in Hl as [Heq | Hl].
      + subst k. rewrite Hhit. apply Hmono.
      + pose proof (IH (step n k) Hl) as Hrec. pose proof (Hstep n k) as Hk. lia. }
  apply (Hgen (trending_keywords st) 0 Hin).
Qed.

(** X20: tokens being parts of the text they are split from, every
    keyword the trend analysis keeps is found, by the substring test of the
    hot score, in the text of at least one paper of the historical corpus,
    and that paper gets a keyword score of at least 1. *)
Theorem trending_keyword_is_found {py : PyStr} (st : PaperManager) (w : string) :
  (∀ s token, token ∈ str_split s → ∃ pre suf, s = pre +:+ token +:+ suf) →
  let st' := state_of (calculate_trending_keywords st) in
  w ∈ trending_keywords st' →
  ∃ p, p ∈ all_past_papers st ∧
       Str.contains w (str_lower (title p +:+ " " +:+ summary p)) = true ∧
       1 ≤ keyword_score st' p.
Proof.
  intros Hparts st' Hw.
  assert (Htoken : w ∈ keyword_tokens (all_past_papers st)).
  { unfold st' in Hw.
    change (trending_keywords (state_of (calculate_trending_keywords st)))
      with (map fst (take 50 (sorted_keywords (keyword_counts (all_past_papers st)))))
      in Hw.
    rewrite keyword_counts_tokens in Hw.
    destruct (sorted_keywords_ranked (keyword_tokens (all_past_papers st)))
      as [Hmem _]. cbv zeta in Hmem. apply Hmem.
    change (map fst (take 50 (sorted_keywords
              (count_scan (keyword_tokens (all_past_papers st))))))
      with (fst <$> take 50 (sorted_keywords
              (count_scan (keyword_tokens (all_past_papers st))))) in Hw.
    rewrite fmap_take in Hw. apply elem_of_take in Hw as (i & Hi & _).
    apply (list_elem_of_lookup_2 _ i). exact Hi. }
  apply keyword_tokens_elem in Htoken as (_ & p & Hp & Hsplit).
  assert (Hfound : Str.contains w (paper_text p) = true).
  { apply Hparts in Hsplit as (pre & suf & Heq).
    change (paper_text p) with (str_lower (title p +:+ " " +:+ summary p)).
    rewrite Heq. apply contains_occurrence. }
  exists p. split; [exact Hp |]. split; [exact Hfound |].
  apply (keyword_score_found st' p w Hw Hfound).
Qed.

(** The word "lattice" of the sample abstract. *)
Lemma trending_keyword_is_found_witness :
  let st := set_all_past_papers [sample_paper 0] paper_manager in
  let st' := state_of (calculate_trending_keywords st) in
  ∃ p, p ∈ all_past_papers st ∧
       Str.contains "lattice" (str_lower (title p +:+ " " +:+ summary p)) = true ∧
       1 ≤ keyword_score st' p.
Proof.
  intros st st'. apply (trending_keyword_is_found st "lattice").
  - intros s token Hin. apply split_from_occurrence in Hin. exact Hin.
  - apply (bool_decide_unpack _). vm_compute. exact I.
Defined.

(** ** Rows *)

(** X21: [format_paper] reads a paper only through its title, its link
    (the PDF address, or the identifier when there is none), the number of
    its authors, its categories and its publication time: two papers that
    agree on these give the same row, whatever the names of their authors
    are. *)
Theorem format_paper_reads (strftime_date : Z → string) (now : Z) (p q : Paper)
    (rank : nat) :
  title p = title q →
  paper_url p = paper_url q →
  length (authors p) = length (authors q) →
  categories p = categories q →
  published p = published q →
  format_paper strftime_date now p rank = format_paper strftime_date now q rank.
Proof.
  intros Htitle Hurl Hauthors Hcats Hpub.
  unfold format_paper, time_ago, categories_text. cbv zeta.
  rewrite Htitle, Hurl, Hauthors, Hcats, Hpub. reflexivity.
Qed.

(** Two papers by different authors, one without a PDF address. *)
Lemma format_paper_reads_witness :
  let p := {| entry_id := "http://arxiv.org/abs/2401.00007v1"; title := "Rows";
              summary := "First abstract"; authors := ["A. Author"];
              published := 0; categories := ["cs.DL"]; pdf_url := None |} in
  let q := {| entry_id := "http://arxiv.org/abs/2401.00008v1"; title := "Rows";
              summary := "Second abstract"; authors := ["B. Writer"];
              published := 0; categories := ["cs.DL"];
              pdf_url := Some "http://arxiv.org/abs/2401.00007v1" |} in
  format_paper (λ _, "1970-01-01") day p 1 = format_paper (λ _, "1970-01-01") day q 1.
Proof.
  intros p q.
  apply (format_paper_reads (λ _, "1970-01-01") day p q 1); reflexivity.
Defined.

(** X22: a row says "today" exactly when the age the scores use is 0
    days, that is when the paper was published less than a day ago or in
    the future; otherwise it says that age in decimal followed by
    " days ago". *)
Theorem time_ago_today (now : Z) (p : Paper) :
  (time_ago now p = "today" ↔ time_diff_days now p = 0%Z) ∧
  (time_diff_days now p ≠ 0%Z →
     time_ago now p = pretty (time_diff_days now p) +:+ " days ago").
Proof.
  unfold time_ago, time_diff_days. cbv zeta.
  set (d := ((now - published p) / day)%Z).
  destruct (Z.ltb_spec 0 d) as [Hpos | Hle].
  - replace (Z.max d 0) with d by lia. split.
    + split; [| lia]. intros Heq. apply (f_equal String.length) in Heq.
      rewrite append_length in Heq. simpl in Heq. lia.
    + intros _. reflexivity.
  - replace (Z.max d 0) with 0%Z by lia. split.
    + split; reflexivity.
    + intros Hne. contradiction.
Qed.
